(** * MLOps Production API: the request-validation and prediction-response contract

    A shallow embedding of [app/main.py] (the FastAPI routes) and
    [app/ml_model.py] (the [MLModel] adapter), with the statements of the
    specification settled against it.

    Layout:
    - [PyFloat]  : Python floats (IEEE 754 binary64) and the built-in [round];
    - [Py]       : Python values, exceptions and the state/exception monad;
    - [Main]     : [app/main.py];
    - [MlModel]  : [app/ml_model.py];
    - [Sample]   : concrete requests, states and file systems;
    - [FloatFacts], [FloatExamples] : the float layer, proved and run;
    - [MainFacts], [MainSpec], [MlModelSpec] : the routes and the adapter;
    - [FloatOrder], [FloatMax] : the order of the floats;
    - [RouteSpec], [ValidationSpec], [AdapterSpec] : the routes, request
      validation and the adapter in full. *)

From Stdlib Require Import ZArith List String Bool Lia.
From Stdlib Require Import SpecFloat.
From Stdlib Require Import Reals Lra.
Import ListNotations.

Local Open Scope Z_scope.

(* ===================================================================== *)
(** * Python floats *)
(* ===================================================================== *)

Module PyFloat.

(** A Python [float] is an IEEE 754 binary64 number.  The carrier is the
    Standard Library's [spec_float]: signed zeros, signed infinities, NaN
    and [S754_finite s m e] of value [(-1)^s * m * 2^e]. *)
Definition float := spec_float.

Definition prec : Z := 53.
(** Exponent of the least significant bit of the subnormals, and of the
    largest binade. *)
Definition emin : Z := -1074.
Definition etop : Z := 971.

(** [S754_finite _ m e] is the canonical encoding of its value: a 53-bit
    mantissa, normalised unless the exponent is the smallest one. *)
Definition canonical (m : positive) (e : Z) : bool :=
  (Zpos m <? 2 ^ prec) && ((2 ^ (prec - 1) <=? Zpos m) || (e =? emin))
  && (emin <=? e) && (e <=? etop).

Definition valid (x : float) : bool :=
  match x with
  | S754_finite _ m e => canonical m e
  | _ => true
  end.

(** [math.isfinite] *)
Definition isfinite (x : float) : bool :=
  match x with
  | S754_zero _ | S754_finite _ _ _ => true
  | S754_infinity _ | S754_nan => false
  end.

(** ** Rounding a rational to the nearest binary64, ties to even *)

(** [a / b] rounded to the nearest integer, ties to the even one
    ([0 <= a], [0 < b]). *)
Definition rhe_div (a b : Z) : Z :=
  let q := a / b in
  match 2 * (a mod b) ?= b with
  | Lt => q
  | Gt => q + 1
  | Eq => if Z.even q then q else q + 1
  end.

(** [floor (log2 (a / b))] for [0 < a], [0 < b]. *)
Definition ilog2_ratio (a b : Z) : Z :=
  let d := Z.log2 a - Z.log2 b in
  if a * 2 ^ Z.max 0 (- d) <? b * 2 ^ Z.max 0 d then d - 1 else d.

(** [a / (b * 2^e)] rounded to the nearest integer, ties to even. *)
Definition scaled_rhe (a b e : Z) : Z :=
  rhe_div (a * 2 ^ Z.max 0 (- e)) (b * 2 ^ Z.max 0 e).

(** The binary64 nearest to [(-1)^s * a / b] ([0 <= a], [0 < b]):
    the exponent [rexp] is chosen from the binade of [a / b], the
    mantissa [rmant] is rounded to nearest-even, a mantissa that rounds
    up to [2^53] moves to the next binade, and a result above the largest
    binade is an infinity. *)
Definition rexp (a b : Z) : Z := Z.max (ilog2_ratio a b - (prec - 1)) emin.

Definition rmant (a b : Z) : Z := scaled_rhe a b (rexp a b).

Definition round_binary64 (s : bool) (a b : Z) : float :=
  if a <=? 0 then S754_zero s else
  let '(m', e') :=
    if rmant a b =? 2 ^ prec then (2 ^ (prec - 1), rexp a b + 1)
    else (rmant a b, rexp a b) in
  match m' with
  | Zpos p => if e' <=? etop then S754_finite s p e' else S754_infinity s
  | _ => S754_zero s
  end.

(** The binary64 nearest to [(-1)^s * m * 2^e] ([0 <= m]). *)
Definition round_dyadic (s : bool) (m e : Z) : float :=
  round_binary64 s (m * 2 ^ Z.max 0 e) (2 ^ Z.max 0 (- e)).

(** The binary64 nearest to the integer [d * 2^e]; an exact zero is [+0.0]. *)
Definition round_int (d e : Z) : float :=
  match d with
  | Z0 => S754_zero false
  | Zpos p => round_dyadic false (Zpos p) e
  | Zneg p => round_dyadic true (Zpos p) e
  end.

(** Float literals and conversions. *)
Definition of_Z (z : Z) : float := round_int z 0.
Definition of_ratio (a b : Z) : float := round_binary64 false a b.

(** ** Arithmetic and comparison *)

(** The value of a finite float as a multiple of [2^ez] (for [ez] at most
    its exponent). *)
Definition scaled (x : float) (ez : Z) : Z :=
  match x with
  | S754_finite s m e => cond_Zopp s (Zpos m * 2 ^ (e - ez))
  | _ => 0
  end.

Definition exponent (x : float) (default : Z) : Z :=
  match x with
  | S754_finite _ _ e => e
  | _ => default
  end.

Definition common_exponent (x y : float) : Z :=
  Z.min (exponent x (exponent y 0)) (exponent y (exponent x 0)).

(** [x - y]: the special cases of IEEE 754 subtraction, and the exact
    difference rounded to nearest-even otherwise. *)
Definition sub (x y : float) : float :=
  match x, y with
  | S754_nan, _ | _, S754_nan => S754_nan
  | S754_infinity sx, S754_infinity sy =>
      if Bool.eqb sx sy then S754_nan else x
  | S754_infinity _, _ => x
  | _, S754_infinity sy => S754_infinity (negb sy)
  | S754_zero sx, S754_zero sy =>
      if Bool.eqb sx sy then S754_zero false else x
  | S754_zero _, S754_finite sy my ey => S754_finite (negb sy) my ey
  | _, S754_zero _ => x
  | S754_finite _ _ _, S754_finite _ _ _ =>
      let ez := common_exponent x y in
      round_int (scaled x ez - scaled y ez) ez
  end.

(** [x * y] *)
Definition mul (x y : float) : float :=
  match x, y with
  | S754_nan, _ | _, S754_nan => S754_nan
  | S754_infinity sx, S754_infinity sy => S754_infinity (xorb sx sy)
  | S754_infinity sx, S754_finite sy _ _ => S754_infinity (xorb sx sy)
  | S754_finite sx _ _, S754_infinity sy => S754_infinity (xorb sx sy)
  | S754_infinity _, S754_zero _ => S754_nan
  | S754_zero _, S754_infinity _ => S754_nan
  | S754_finite sx _ _, S754_zero sy => S754_zero (xorb sx sy)
  | S754_zero sx, S754_finite sy _ _ => S754_zero (xorb sx sy)
  | S754_zero sx, S754_zero sy => S754_zero (xorb sx sy)
  | S754_finite sx mx ex, S754_finite sy my ey =>
      round_dyadic (xorb sx sy) (Zpos mx * Zpos my) (ex + ey)
  end.

(** Comparison by value; [None] when an operand is NaN. *)
Definition compare (x y : float) : option comparison :=
  match x, y with
  | S754_nan, _ | _, S754_nan => None
  | S754_infinity sx, S754_infinity sy =>
      Some (if Bool.eqb sx sy then Eq else if sx then Lt else Gt)
  | S754_infinity sx, _ => Some (if sx then Lt else Gt)
  | _, S754_infinity sy => Some (if sy then Gt else Lt)
  | _, _ =>
      let ez := common_exponent x y in
      Some (scaled x ez ?= scaled y ez)
  end.

(** [x <= y] and [x < y]; both are [False] on NaN. *)
Definition leb (x y : float) : bool :=
  match compare x y with
  | Some (Lt | Eq) => true
  | _ => false
  end.

Definition ltb (x y : float) : bool :=
  match compare x y with
  | Some Lt => true
  | _ => false
  end.

Definition zero : float := S754_zero false.

(** ** The built-in [round(x, ndigits)] *)

(** CPython's [float.__round__] with a second argument: a non-finite [x]
    rounds to itself; otherwise [x] is converted to the decimal with
    [ndigits] digits after the point nearest to its exact value (ties to
    even), and that decimal is converted back to the nearest float.
    [OverflowError] is raised when the result is not finite.  The
    service calls it with [ndigits] 4 and 2; [ndigits] is taken
    non-negative here. *)
Definition round_decimal (m : positive) (e : Z) (ndigits : Z) : Z :=
  rhe_div (Zpos m * 10 ^ ndigits * 2 ^ Z.max 0 e) (2 ^ Z.max 0 (- e)).

Definition py_round (x : float) (ndigits : Z) : option float :=
  match x with
  | S754_finite s m e =>
      let r := round_binary64 s (round_decimal m e ndigits) (10 ^ ndigits) in
      if isfinite r then Some r else None
  | _ => Some x
  end.

(** [max] over a non-empty sequence of floats: the first element that no
    later element exceeds under [>]. *)
Fixpoint max_from (best : float) (xs : list float) : float :=
  match xs with
  | [] => best
  | x :: xs' => max_from (if ltb best x then x else best) xs'
  end.

Definition py_max (xs : list float) : option float :=
  match xs with
  | [] => None
  | x :: xs' => Some (max_from x xs')
  end.

(** ** Vocabulary for the statements *)

(** [2^e] as a real number. *)
Definition p2 (e : Z) : R := powerRZ 2 e.

(** [x] is the float nearest to a decimal with [n] digits after the
    point. *)
Definition has_decimals (n : Z) (x : float) : Prop :=
  exists s k, x = round_binary64 s k (10 ^ n).

(** [0 <= x] *)
Definition nonneg (x : float) : bool := leb zero x.

(** [1.0] *)
Definition one : float := S754_finite false 4503599627370496 (-52).

(** The real number a float stands for (0 for the zeros; infinities and
    NaN stand for no number and are given 0). *)
Definition B2R (x : float) : R :=
  match x with
  | S754_finite s m e =>
      ((if s then - IZR (Zpos m) else IZR (Zpos m)) * p2 e)%R
  | _ => 0%R
  end.

End PyFloat.

(* ===================================================================== *)
(** * Python values, exceptions and effects *)
(* ===================================================================== *)

Module Py.

Import PyFloat.
Local Open Scope string_scope.

(** Values that travel in request and response bodies: what [json.loads]
    produces and [json.dumps] consumes.  A [dict] keeps its insertion
    order. *)
#[local] Unset Elimination Schemes.
Inductive value : Type :=
| VNone
| VBool (b : bool)
| VInt (z : Z)
| VNum (x : float)
| VStr (s : string)
| VList (items : list value)
| VDict (entries : list (string * value)).
#[local] Set Elimination Schemes.

Definition dict := list (string * value).

Fixpoint lookup (k : string) (d : dict) : option value :=
  match d with
  | [] => None
  | (k', v) :: d' => if String.eqb k k' then Some v else lookup k d'
  end.

(** [k in d] *)
Definition contains (d : dict) (k : string) : bool :=
  match lookup k d with Some _ => true | None => false end.

Definition keys (d : dict) : list string := map fst d.

(** Exceptions: FastAPI's [HTTPException] and the built-in ones, the
    latter by class name and message. *)
Inductive exn : Type :=
| HTTPException (status_code : Z) (detail : string)
| PyError (cls : string) (msg : string).

Definition ValueError := PyError "ValueError".
Definition OverflowError := PyError "OverflowError".
Definition AttributeError := PyError "AttributeError".

(** The part of the process state the handlers read: the wall clock, as
    the sequence of values successive [time.time()] calls return, and
    NumPy's global generator, as the sequence of 53-bit integers behind
    successive [np.random.random()] calls. *)
Record World : Type := mkWorld {
  clock : nat -> float;
  ticks : nat;
  rng : nat -> Z;
  draws : nat
}.

(** Computations that read and advance the world and may raise. *)
Definition M (A : Type) : Type := World -> (A + exn) * World.

Definition ret {A} (a : A) : M A := fun w => (inl a, w).

Definition raise {A} (e : exn) : M A := fun w => (inr e, w).

Definition bind {A B} (m : M A) (k : A -> M B) : M B :=
  fun w =>
    match m w with
    | (inl a, w') => k a w'
    | (inr e, w') => (inr e, w')
    end.

(** [try: body except Exception as e: handler e] *)
Definition try_except {A} (body : M A) (handler : exn -> M A) : M A :=
  fun w =>
    match body w with
    | (inl a, w') => (inl a, w')
    | (inr e, w') => handler e w'
    end.

(** A pure step that may raise. *)
Definition lift {A} (r : A + exn) : M A := fun w => (r, w).

(** [time.time()] *)
Definition time_time : M float :=
  fun w => (inl (clock w (ticks w)),
            mkWorld (clock w) (S (ticks w)) (rng w) (draws w)).

(** [np.random.random()]: a float drawn from [[0, 1)], [k / 2^53] for
    the next 53-bit integer [k] of the generator. *)
Definition uniform (k : Z) : float :=
  round_dyadic false (k mod 2 ^ 53) (- 53).

Definition np_random_random : M float :=
  fun w => (inl (uniform (rng w (draws w))),
            mkWorld (clock w) (ticks w) (rng w) (S (draws w))).

(** [np.array(xs).reshape(1, -1)]: one row holding [xs], of shape
    [(1, len(xs))].  For a list of floats neither step raises, the empty
    list included (the row then has no column). *)
Definition reshape_row (xs : list float) : list (list float) + exn :=
  inl [xs].

(** [round(x, ndigits)] as a step that may raise. *)
Definition round (x : float) (ndigits : Z) : float + exn :=
  match py_round x ndigits with
  | Some r => inl r
  | None => inr (OverflowError "rounded value too large to represent")
  end.

(** [json.dumps(v, allow_nan=False)] succeeds: every float in [v] is
    finite. *)
Fixpoint json_compliant (v : value) : bool :=
  match v with
  | VNum x => isfinite x
  | VList items => forallb json_compliant items
  | VDict entries => forallb (fun kv => json_compliant (snd kv)) entries
  | _ => true
  end.

End Py.

Declare Scope py_scope.
Delimit Scope py_scope with py.
Notation "x <- m ;; k" := (Py.bind m (fun x => k))
  (at level 61, m at next level, right associativity) : py_scope.
Notation "m ;;; k" := (Py.bind m (fun _ => k))
  (at level 61, right associativity) : py_scope.

(* ===================================================================== *)
(** * app/main.py *)
(* ===================================================================== *)

Module Main.

Import PyFloat Py.
Local Open Scope string_scope.
Local Open Scope py_scope.

(** What the libraries under the application decide and the source does
    not: pydantic's coercion of a JSON scalar that is not already of the
    field's type (a string or an integer offered for a [float], a number
    offered for a [str]), and the text [str(e)] gives for an
    [HTTPException]. *)
Record Framework : Type := mkFramework {
  lax_float : value -> option float;
  lax_str : value -> option string;
  http_exception_str : Z -> string -> string
}.

(** [class PredictionRequest(BaseModel)] *)
Record PredictionRequest : Type := mkPredictionRequest {
  features : list float;
  model_version : string
}.

(** An HTTP response: the status and the body. *)
Inductive body : Type :=
| JsonBody (v : value)
| ValidationErrors        (* [{"detail": [...]}] of a request that fails validation *)
| InternalServerError.    (* the plain-text body of an unhandled exception *)

Record Response : Type := mkResponse {
  status : Z;
  content : body
}.

(** [model_loaded = True], [MODEL_VERSION = "v1.0.0"] *)
Definition model_loaded : bool := true.
Definition MODEL_VERSION : string := "v1.0.0".

Section App.

Variable fw : Framework.

(** ** Request validation: [features: List[float]],
    [model_version: str = "v1.0"] *)

Definition float_validator (v : value) : option float :=
  match v with
  | VNum x => Some x
  | VNone | VList _ | VDict _ => None
  | VBool _ | VInt _ | VStr _ => lax_float fw v
  end.

Definition str_validator (v : value) : option string :=
  match v with
  | VStr s => Some s
  | VNone | VList _ | VDict _ => None
  | VBool _ | VInt _ | VNum _ => lax_str fw v
  end.

Fixpoint validate_items (items : list value) : option (list float) :=
  match items with
  | [] => Some []
  | v :: rest =>
      match float_validator v, validate_items rest with
      | Some x, Some xs => Some (x :: xs)
      | _, _ => None
      end
  end.

(** [List[float]]: a JSON array whose items all validate as floats; an
    object, a string or a scalar is not a valid list. *)
Definition list_float_validator (v : value) : option (list float) :=
  match v with
  | VList items => validate_items items
  | _ => None
  end.

Definition validate_PredictionRequest (raw : value) : option PredictionRequest :=
  match raw with
  | VDict entries =>
      match lookup "features" entries with
      | None => None
      | Some fv =>
          match list_float_validator fv with
          | None => None
          | Some fs =>
              match lookup "model_version" entries with
              | None => Some (mkPredictionRequest fs "v1.0")
              | Some mv =>
                  match str_validator mv with
                  | Some s => Some (mkPredictionRequest fs s)
                  | None => None
                  end
              end
          end
      end
  | _ => None
  end.

(** ** The handlers *)

(** [str(e)] *)
Definition str_exn (e : exn) : string :=
  match e with
  | HTTPException code detail => http_exception_str fw code detail
  | PyError _ msg => msg
  end.

(** [async def root()] *)
Definition root : dict :=
  [ ("message", VStr "MLOps Production API");
    ("version", VStr MODEL_VERSION);
    ("docs", VStr "/docs") ].

(** [async def health_check()] *)
Definition health_check : dict :=
  [ ("status", VStr "healthy");
    ("model_loaded", VBool model_loaded);
    ("version", VStr MODEL_VERSION) ].

(** [async def model_info()] *)
Definition model_info : dict :=
  [ ("name", VStr "customer-churn-model");
    ("version", VStr MODEL_VERSION);
    ("framework", VStr "scikit-learn");
    ("description", VStr "Production ML model for customer churn prediction");
    ("metrics", VDict [ ("accuracy", VNum (of_ratio 85 100));
                        ("precision", VNum (of_ratio 83 100));
                        ("recall", VNum (of_ratio 81 100));
                        ("f1_score", VNum (of_ratio 82 100)) ]) ].

(** [async def predict(request: PredictionRequest)].  The two
    [logger] calls write to the log only and are left out. *)
Definition predict (request : PredictionRequest) : M dict :=
  start_time <- time_time ;;
  try_except
    ((if match features request with [] => true | _ => false end
      then raise (HTTPException 400 "Features cannot be empty")
      else ret tt) ;;;
     features_array <- lift (reshape_row (features request)) ;;
     prediction <- np_random_random ;;
     probability <- np_random_random ;;
     now <- time_time ;;
     let inference_time := mul (sub now start_time) (of_Z 1000) in
     prediction4 <- lift (round prediction 4) ;;
     probability4 <- lift (round probability 4) ;;
     inference_time2 <- lift (round inference_time 2) ;;
     ret [ ("prediction", VNum prediction4);
           ("probability", VNum probability4);
           ("model_version", VStr MODEL_VERSION);
           ("inference_time_ms", VNum inference_time2) ])
    (fun e =>
       raise (HTTPException 500 ("Prediction failed: " ++ str_exn e))).


(** ** The routes *)

(** A returned value rendered as a JSON response; a float that JSON
    cannot carry makes the rendering raise, which the server answers
    with a 500. *)
Definition json_response (v : value) : Response :=
  if json_compliant v then mkResponse 200 (JsonBody v)
  else mkResponse 500 InternalServerError.

(** [response_model=PredictionResponse]: the returned dict is
    validated against the model's fields and only they are kept. *)
Definition response_model_PredictionResponse (d : dict) : option dict :=
  match lookup "prediction" d, lookup "probability" d,
        lookup "model_version" d, lookup "inference_time_ms" d with
  | Some p, Some q, Some v, Some t =>
      match float_validator p, float_validator q,
            str_validator v, float_validator t with
      | Some p', Some q', Some v', Some t' =>
          Some [ ("prediction", VNum p');
                 ("probability", VNum q');
                 ("model_version", VStr v');
                 ("inference_time_ms", VNum t') ]
      | _, _, _, _ => None
      end
  | _, _, _, _ => None
  end.

(** [response_model=HealthResponse] *)
Definition response_model_HealthResponse (d : dict) : option dict :=
  match lookup "status" d, lookup "model_loaded" d, lookup "version" d with
  | Some (VStr s), Some (VBool b), Some (VStr v) =>
      Some [ ("status", VStr s); ("model_loaded", VBool b); ("version", VStr v) ]
  | _, _, _ => None
  end.

Definition respond_with (model : dict -> option dict) (d : dict) : Response :=
  match model d with
  | Some d' => json_response (VDict d')
  | None => mkResponse 500 InternalServerError
  end.

(** An exception that leaves a handler: an [HTTPException] becomes the
    response it describes, anything else a 500. *)
Definition exception_response (e : exn) : Response :=
  match e with
  | HTTPException code detail =>
      mkResponse code (JsonBody (VDict [("detail", VStr detail)]))
  | PyError _ _ => mkResponse 500 InternalServerError
  end.

(** [GET /] *)
Definition get_root : Response := json_response (VDict root).

(** [GET /health] *)
Definition get_health : Response :=
  respond_with response_model_HealthResponse health_check.

(** [GET /model/info] *)
Definition get_model_info : Response := json_response (VDict model_info).


(** [POST /predict] with the decoded JSON body [raw]: a body that does
    not validate as a [PredictionRequest] is answered with 422 before
    the handler runs. *)
Definition post_predict (raw : value) (w : World) : Response * World :=
  match validate_PredictionRequest raw with
  | None => (mkResponse 422 ValidationErrors, w)
  | Some request =>
      match predict request w with
      | (inl d, w') => (respond_with response_model_PredictionResponse d, w')
      | (inr e, w') => (exception_response e, w')
      end
  end.

End App.

(** ** Vocabulary for the statements *)

(** The latency [predict] computes in state [w]: the reading taken
    before the [try] subtracted from the next one, in milliseconds. *)
Definition elapsed_ms (w : World) : float :=
  mul (sub (clock w (S (ticks w))) (clock w (ticks w))) (of_Z 1000).

(** The state a successful [predict] leaves: two clock readings and two
    draws consumed. *)
Definition after_predict (w : World) : World :=
  mkWorld (clock w) (S (S (ticks w))) (rng w) (S (S (draws w))).

(** The state after one clock reading. *)
Definition after_reading (w : World) : World :=
  mkWorld (clock w) (S (ticks w)) (rng w) (draws w).

(** The JSON body that carries a request. *)
Definition encode_request (request : PredictionRequest) : value :=
  VDict [ ("features", VList (map VNum (features request)));
          ("model_version", VStr (model_version request)) ].

(** The detail of the only error a handler of this file raises. *)
Definition empty_features_detail (fw : Framework) : string :=
  "Prediction failed: " ++ http_exception_str fw 400 "Features cannot be empty".

(** The dict a successful [predict] returns. *)
Definition prediction_dict (p q t : float) : dict :=
  [ ("prediction", VNum p);
    ("probability", VNum q);
    ("model_version", VStr MODEL_VERSION);
    ("inference_time_ms", VNum t) ].

End Main.

(* ===================================================================== *)
(** * app/ml_model.py *)
(* ===================================================================== *)

Module MlModel.

Import PyFloat Py.
Local Open Scope string_scope.

(** The arguments of [make_classification]: they determine the synthetic
    dataset. *)
Record dataset : Type := mkDataset {
  n_samples : Z;
  n_features : Z;
  random_state : Z
}.

Definition matrix := list (list float).

(** The objects the [model] attribute can hold: [None], a
    [LogisticRegression] fitted on a synthetic dataset, or whatever else
    the model file unpickles to: an instance of some class, which may or
    may not have the two estimator methods. *)
Inductive pyobject : Type :=
| PyNone
| LogisticRegression (fitted_on : dataset)
| Instance (cls : string)
           (predict_method : option (matrix -> list Z + exn))
           (predict_proba_method : option (matrix -> matrix + exn)).

(** [type(o).__name__] *)
Definition type_name (o : pyobject) : string :=
  match o with
  | PyNone => "NoneType"
  | LogisticRegression _ => "LogisticRegression"
  | Instance cls _ _ => cls
  end.

(** [o is not None] *)
Definition is_not_None (o : pyobject) : bool :=
  match o with
  | PyNone => false
  | _ => true
  end.

(** What lies outside the source: the file system and [joblib] at the
    time of the call, the numeric behaviour of a fitted scikit-learn
    estimator, and the text of a [pathlib.Path]. *)
Record Environment : Type := mkEnvironment {
  path_exists : string -> bool + exn;
  joblib_load : string -> pyobject + exn;
  lr_predict : dataset -> matrix -> list Z + exn;
  lr_predict_proba : dataset -> matrix -> matrix + exn;
  path_str : string -> string
}.

(** [class MLModel]: the instance attributes. *)
Record MLModel : Type := mkMLModel {
  model_path : string;
  model : pyobject;
  feature_names : pyobject
}.

Definition rbind {A B} (r : A + exn) (k : A -> B + exn) : B + exn :=
  match r with
  | inl a => k a
  | inr e => inr e
  end.

Section Adapter.

Variable env : Environment.

(** [_create_dummy_model]: a [LogisticRegression] fitted on
    [make_classification(n_samples=100, n_features=4, random_state=42)]. *)
Definition _create_dummy_model : pyobject :=
  LogisticRegression (mkDataset 100 4 42).

(** [load_model] *)
Definition load_model (self : MLModel) : MLModel :=
  let attempt : pyobject + exn :=
    rbind (path_exists env (model_path self)) (fun found =>
      if found then joblib_load env (model_path self)
      else inl _create_dummy_model) in
  match attempt with
  | inl m => mkMLModel (model_path self) m (feature_names self)
  | inr _ => mkMLModel (model_path self) _create_dummy_model (feature_names self)
  end.

(** [__init__] *)
Definition init (path : string) : MLModel :=
  load_model (mkMLModel path PyNone PyNone).

Definition default_model_path : string := "models/model.pkl".

(** [self.model.predict(a)] and [self.model.predict_proba(a)] *)
Definition call_predict (o : pyobject) (a : matrix) : list Z + exn :=
  match o with
  | PyNone => inr (AttributeError "'NoneType' object has no attribute 'predict'")
  | LogisticRegression d => lr_predict env d a
  | Instance _ (Some f) _ => f a
  | Instance _ None _ => inr (AttributeError "object has no attribute 'predict'")
  end.

Definition call_predict_proba (o : pyobject) (a : matrix) : matrix + exn :=
  match o with
  | PyNone => inr (AttributeError "'NoneType' object has no attribute 'predict_proba'")
  | LogisticRegression d => lr_predict_proba env d a
  | Instance _ _ (Some f) => f a
  | Instance _ _ None => inr (AttributeError "object has no attribute 'predict_proba'")
  end.

(** [xs[0]] *)
Definition first {A} (xs : list A) : A + exn :=
  match xs with
  | x :: _ => inl x
  | [] => inr (PyError "IndexError" "index 0 is out of bounds")
  end.

(** [max(xs)] *)
Definition max_of (xs : list float) : float + exn :=
  match py_max xs with
  | Some x => inl x
  | None => inr (ValueError "max() arg is an empty sequence")
  end.

Definition str_exn (e : exn) : string :=
  match e with
  | HTTPException _ detail => detail
  | PyError _ msg => msg
  end.

(** [predict] *)
Definition predict (self : MLModel) (features : list (string * float)) : dict + exn :=
  let attempt : dict + exn :=
    rbind (reshape_row (map snd features)) (fun feature_array =>
    rbind (rbind (call_predict (model self) feature_array) first) (fun prediction =>
    rbind (rbind (call_predict_proba (model self) feature_array) first) (fun probability =>
    rbind (max_of probability) (fun confidence =>
    inl [ ("prediction", VInt prediction);
          ("probability", VList (map VNum probability));
          ("confidence", VNum confidence) ])))) in
  match attempt with
  | inl d => inl d
  | inr e => inr (ValueError ("Failed to make prediction: " ++ str_exn e))
  end.

(** [get_model_info] *)
Definition get_model_info (self : MLModel) : dict :=
  [ ("model_type", VStr (type_name (model self)));
    ("model_path", VStr (path_str env (model_path self)));
    ("is_loaded", VBool (is_not_None (model self))) ].

End Adapter.

End MlModel.

(* ===================================================================== *)
(** * Concrete states used to run the code *)
(* ===================================================================== *)

Module Sample.

Import PyFloat Py.
Local Open Scope string_scope.

(** A framework that coerces nothing and prints an [HTTPException] as
    its detail. *)
Definition strict : Main.Framework :=
  Main.mkFramework (fun _ => None) (fun _ => None) (fun _ detail => detail).

(** A clock that starts near 1.7e9 seconds and advances 7 ms per
    reading, and a generator. *)
Definition world : World :=
  mkWorld (fun n => of_ratio (1700000000000 + 7 * Z.of_nat n) 1000) 0
          (fun n => 6364136223846793005 * (Z.of_nat n + 1)) 0.

(** [{"features": {"feature1": 1.0, ..., "feature4": 4.0}}], the body
    [tests/test_api.py] posts. *)
Definition object_body : value :=
  VDict [ ("features", VDict [ ("feature1", VNum (of_Z 1)); ("feature2", VNum (of_Z 2));
                               ("feature3", VNum (of_Z 3)); ("feature4", VNum (of_Z 4)) ]) ].

(** [{"features": [1.0, 2.0, 3.0, 4.0]}] *)
Definition array_body : value :=
  VDict [ ("features", VList [ VNum (of_Z 1); VNum (of_Z 2); VNum (of_Z 3); VNum (of_Z 4) ]) ].

(** [{"features": [1.0, 2.0, 3.0, 4.0], "model_version": "v9.9"}] *)
Definition versioned_body : value :=
  VDict [ ("features", VList [ VNum (of_Z 1); VNum (of_Z 2); VNum (of_Z 3); VNum (of_Z 4) ]);
          ("model_version", VStr "v9.9") ].

(** [{"features": [NaN]}] *)
Definition nan_body : value :=
  VDict [ ("features", VList [ VNum S754_nan ]) ].

(** [{"features": []}] and [{"features": {}}] *)
Definition empty_array_body : value := VDict [ ("features", VList []) ].
Definition empty_object_body : value := VDict [ ("features", VDict []) ].

(** A file system whose model file unpickles to [None], and one with no
    model file. *)
Definition pickled_None : MlModel.Environment :=
  MlModel.mkEnvironment (fun _ => inl true) (fun _ => inl MlModel.PyNone)
    (fun _ _ => inl [0%Z]) (fun _ _ => inl [[of_ratio 1 4; of_ratio 3 4]])
    (fun p => p).

Definition no_model_file : MlModel.Environment :=
  MlModel.mkEnvironment (fun _ => inl false)
    (fun _ => inr (PyError "FileNotFoundError" "No such file or directory"))
    (fun _ _ => inl [0%Z]) (fun _ _ => inl [[of_ratio 1 4; of_ratio 3 4]])
    (fun p => p).

End Sample.


(* ===================================================================== *)
(** * Tactics *)
(* ===================================================================== *)

(** Distribute the injection of the integers into the reals over the
    arithmetic of a hypothesis. *)
Ltac push_IZR H :=
  repeat first [ rewrite minus_IZR in H | rewrite plus_IZR in H
               | rewrite mult_IZR in H | rewrite opp_IZR in H ].

(* ===================================================================== *)
(** * Facts about the float layer *)
(* ===================================================================== *)

Module FloatFacts.

Import PyFloat.

(** ** Division rounded to nearest *)

Lemma rhe_div_bounds a b :
  0 < b -> 2 * rhe_div a b * b - b <= 2 * a <= 2 * rhe_div a b * b + b.
Proof.
  intros Hb. unfold rhe_div.
  pose proof (Z.div_mod a b ltac:(lia)) as Hdm.
  pose proof (Z.mod_pos_bound a b Hb) as Hr.
  destruct (Z.compare_spec (2 * (a mod b)) b) as [H|H|H];
    [destruct (Z.even (a / b))| |]; nia.
Qed.

Lemma rhe_div_nonneg a b : 0 <= a -> 0 < b -> 0 <= rhe_div a b.
Proof.
  intros Ha Hb. unfold rhe_div.
  assert (0 <= a / b) by (apply Z.div_pos; lia).
  destruct (2 * (a mod b) ?= b); [destruct (Z.even (a / b))| |]; lia.
Qed.

Lemma rhe_div_unique a b q :
  0 < b -> 2 * q * b - b < 2 * a < 2 * q * b + b -> rhe_div a b = q.
Proof.
  intros Hb Hq. unfold rhe_div.
  pose proof (Z.div_mod a b ltac:(lia)) as Hdm.
  pose proof (Z.mod_pos_bound a b Hb) as Hr.
  assert (a / b = q \/ a / b = q - 1) as Hcase by nia.
  destruct (Z.compare_spec (2 * (a mod b)) b) as [H|H|H];
    [destruct (Z.even (a / b))| |]; nia.
Qed.

Local Open Scope R_scope.

(** ** Powers of two as reals *)

Lemma p2_pos e : 0 < p2 e.
Proof. apply powerRZ_lt. lra. Qed.

Lemma p2_add a b : p2 (a + b) = p2 a * p2 b.
Proof. apply powerRZ_add. lra. Qed.

Lemma p2_0 : p2 0 = 1.
Proof. reflexivity. Qed.

Lemma p2_1 : p2 1 = 2.
Proof. unfold p2. simpl. lra. Qed.

Lemma p2_succ e : p2 (e + 1) = 2 * p2 e.
Proof. rewrite p2_add, p2_1. lra. Qed.

Lemma p2_opp e : p2 (- e) = / p2 e.
Proof. apply powerRZ_neg'. Qed.

Lemma p2_Z n : (0 <= n)%Z -> p2 n = IZR (2 ^ n).
Proof.
  intros Hn. destruct n as [|p|p]; [reflexivity| |lia].
  unfold p2. symmetry. apply (Zpower_pos_powerRZ 2 p).
Qed.

Lemma p2_ge_1 n : (0 <= n)%Z -> 1 <= p2 n.
Proof.
  intros Hn. rewrite p2_Z by assumption. apply IZR_le.
  assert (0 < 2 ^ n)%Z by (apply Z.pow_pos_nonneg; lia). lia.
Qed.

Lemma p2_le a b : (a <= b)%Z -> p2 a <= p2 b.
Proof.
  intros Hab. replace b with (a + (b - a))%Z by lia.
  rewrite p2_add. pose proof (p2_pos a). pose proof (p2_ge_1 (b - a)).
  assert (1 <= p2 (b - a)) by (apply p2_ge_1; lia). nra.
Qed.

Lemma p2_lt a b : (a < b)%Z -> 2 * p2 a <= p2 b.
Proof.
  intros Hab. rewrite <- p2_succ. apply p2_le. lia.
Qed.

Lemma p2_lt_inv a b : p2 a < p2 b -> (a < b)%Z.
Proof.
  intros H. destruct (Z_lt_le_dec a b) as [|Hle]; [assumption|].
  apply p2_le in Hle. lra.
Qed.

Lemma p2_split e : IZR (2 ^ Z.max 0 e) / IZR (2 ^ Z.max 0 (- e)) = p2 e.
Proof.
  rewrite <- !p2_Z by lia.
  replace e with (Z.max 0 e + - Z.max 0 (- e))%Z at 3 by lia.
  rewrite p2_add, p2_opp. reflexivity.
Qed.

Lemma IZR_pow2_pos n : 0 < IZR (2 ^ Z.max 0 n).
Proof. rewrite <- p2_Z by lia. apply p2_pos. Qed.

Lemma Rabs_le_inv x y : Rabs x <= y -> - y <= x <= y.
Proof. unfold Rabs. destruct (Rcase_abs x); lra. Qed.

Lemma Rabs_lt_inv x y : Rabs x < y -> - y < x < y.
Proof. unfold Rabs. destruct (Rcase_abs x); lra. Qed.

Lemma Rabs_lt_intro x y : - y < x < y -> Rabs x < y.
Proof. unfold Rabs. destruct (Rcase_abs x); lra. Qed.


Lemma IZR_ratio a b t : (0 < b)%Z -> t = IZR a / IZR b -> t * IZR b = IZR a.
Proof.
  intros Hb ->. apply IZR_lt in Hb. field. lra.
Qed.

Lemma rhe_div_error a b :
  (0 < b)%Z -> Rabs (IZR (rhe_div a b) - IZR a / IZR b) <= 1 / 2.
Proof.
  intros Hb. pose proof (rhe_div_bounds a b Hb) as [H1 H2].
  apply IZR_le in H1, H2. apply IZR_lt in Hb as Hb'.
  push_IZR H1. push_IZR H2.
  pose proof (IZR_ratio a b _ Hb eq_refl) as Ht.
  set (t := IZR a / IZR b) in *.
  apply Rabs_le. split; nra.
Qed.

Lemma rhe_div_near a b q :
  (0 < b)%Z -> Rabs (IZR q - IZR a / IZR b) < 1 / 2 -> rhe_div a b = q.
Proof.
  intros Hb Hq. apply rhe_div_unique; [assumption|].
  apply IZR_lt in Hb as Hb'.
  pose proof (IZR_ratio a b _ Hb eq_refl) as Ht.
  set (t := IZR a / IZR b) in *.
  apply Rabs_def2 in Hq. destruct Hq as [Hq1 Hq2].
  split; apply lt_IZR; rewrite ?minus_IZR, ?plus_IZR, ?mult_IZR; nra.
Qed.

(** [scaled_rhe a b e] is [a / b / 2^e] rounded to the nearest integer. *)
Lemma scaled_ratio a b e :
  (0 < b)%Z ->
  IZR (a * 2 ^ Z.max 0 (- e)) / IZR (b * 2 ^ Z.max 0 e) = IZR a / IZR b / p2 e.
Proof.
  intros Hb. apply IZR_lt in Hb.
  rewrite <- (p2_split e), !mult_IZR.
  pose proof (IZR_pow2_pos e). pose proof (IZR_pow2_pos (- e)).
  field. lra.
Qed.

Lemma scaled_den_pos b e : (0 < b)%Z -> (0 < b * 2 ^ Z.max 0 e)%Z.
Proof.
  intros Hb. apply Z.mul_pos_pos; [assumption|].
  apply Z.pow_pos_nonneg; lia.
Qed.

Lemma scaled_rhe_error a b e :
  (0 < b)%Z -> Rabs (IZR (scaled_rhe a b e) - IZR a / IZR b / p2 e) <= 1 / 2.
Proof.
  intros Hb. unfold scaled_rhe. rewrite <- scaled_ratio by assumption.
  apply rhe_div_error, scaled_den_pos, Hb.
Qed.

Lemma scaled_rhe_near a b e q :
  (0 < b)%Z -> Rabs (IZR q - IZR a / IZR b / p2 e) < 1 / 2 ->
  scaled_rhe a b e = q.
Proof.
  intros Hb Hq. unfold scaled_rhe. apply rhe_div_near.
  - apply scaled_den_pos, Hb.
  - rewrite scaled_ratio by assumption. exact Hq.
Qed.

Lemma scaled_rhe_nonneg a b e : (0 <= a)%Z -> (0 < b)%Z -> (0 <= scaled_rhe a b e)%Z.
Proof.
  intros Ha Hb. apply rhe_div_nonneg.
  - apply Z.mul_nonneg_nonneg; [assumption|]. apply Z.pow_nonneg. lia.
  - apply scaled_den_pos, Hb.
Qed.


(** ** The binade of a ratio *)

Lemma log2_bounds a : (0 < a)%Z -> p2 (Z.log2 a) <= IZR a < 2 * p2 (Z.log2 a).
Proof.
  intros Ha. pose proof (Z.log2_spec a Ha) as [H1 H2].
  pose proof (Z.log2_nonneg a) as Hl.
  rewrite <- p2_succ. replace (Z.log2 a + 1)%Z with (Z.succ (Z.log2 a)) by lia.
  rewrite !p2_Z by lia. split; [apply IZR_le | apply IZR_lt]; assumption.
Qed.

Lemma ilog2_ratio_spec a b :
  (0 < a)%Z -> (0 < b)%Z ->
  p2 (ilog2_ratio a b) <= IZR a / IZR b < p2 (ilog2_ratio a b + 1).
Proof.
  intros Ha Hb. unfold ilog2_ratio.
  pose proof (log2_bounds a Ha) as [Ha1 Ha2].
  pose proof (log2_bounds b Hb) as [Hb1 Hb2].
  pose proof (p2_pos (Z.log2 a)) as Hpa. pose proof (p2_pos (Z.log2 b)) as Hpb.
  set (d := (Z.log2 a - Z.log2 b)%Z).
  assert (Hd : p2 d * p2 (Z.log2 b) = p2 (Z.log2 a)).
  { rewrite <- p2_add. f_equal. unfold d. lia. }
  pose proof (p2_pos d) as Hpd.
  pose proof (IZR_ratio a b _ Hb eq_refl) as Ht.
  apply IZR_lt in Hb as Hb'. apply IZR_lt in Ha as Ha'.
  set (t := IZR a / IZR b) in *.
  pose proof (p2_split d) as Hs.
  pose proof (IZR_pow2_pos d) as Hn. pose proof (IZR_pow2_pos (- d)) as Hm.
  set (N := IZR (2 ^ Z.max 0 d)) in *. set (D := IZR (2 ^ Z.max 0 (- d))) in *.
  assert (HND : N = p2 d * D) by (rewrite <- Hs; field; lra).
  assert (Hlow : p2 d * IZR b < 2 * IZR a).
  { assert (p2 d * IZR b < p2 d * (2 * p2 (Z.log2 b)))
      by (apply Rmult_lt_compat_l; lra). lra. }
  assert (Hhigh : IZR a < 2 * p2 d * IZR b).
  { assert (p2 d * p2 (Z.log2 b) <= p2 d * IZR b)
      by (apply Rmult_le_compat_l; lra). lra. }
  destruct (Z.ltb_spec (a * 2 ^ Z.max 0 (- d)) (b * 2 ^ Z.max 0 d)) as [Hlt|Hge].
  - apply IZR_lt in Hlt. rewrite !mult_IZR in Hlt. fold N D in Hlt.
    replace (d - 1 + 1)%Z with d by lia.
    assert (Hd1 : 2 * p2 (d - 1) = p2 d).
    { rewrite <- p2_succ. f_equal. lia. }
    assert (Hlt' : IZR a < IZR b * p2 d).
    { apply Rmult_lt_reg_r with D; [lra|]. rewrite HND in Hlt. lra. }
    rewrite <- Hd1 in Hlow.
    split.
    + apply Rmult_le_reg_r with (IZR b); [lra|]. lra.
    + apply Rmult_lt_reg_r with (IZR b); [lra|]. lra.
  - apply IZR_le in Hge. rewrite !mult_IZR in Hge. fold N D in Hge.
    rewrite p2_succ.
    assert (Hge' : IZR b * p2 d <= IZR a).
    { apply Rmult_le_reg_r with D; [lra|]. rewrite HND in Hge. lra. }
    split.
    + apply Rmult_le_reg_r with (IZR b); [lra|]. lra.
    + apply Rmult_lt_reg_r with (IZR b); [lra|]. lra.
Qed.

Lemma ilog2_ratio_unique a b E :
  (0 < a)%Z -> (0 < b)%Z ->
  p2 E <= IZR a / IZR b < p2 (E + 1) -> ilog2_ratio a b = E.
Proof.
  intros Ha Hb [H1 H2].
  pose proof (ilog2_ratio_spec a b Ha Hb) as [H3 H4].
  assert (E < ilog2_ratio a b + 1)%Z by (apply p2_lt_inv; lra).
  assert (ilog2_ratio a b < E + 1)%Z by (apply p2_lt_inv; lra).
  lia.
Qed.


(** ** Rounding to binary64 *)

Lemma p2_52 : p2 52 = 4503599627370496.
Proof. rewrite p2_Z by lia. reflexivity. Qed.

Lemma p2_53 : p2 53 = 9007199254740992.
Proof. rewrite p2_Z by lia. reflexivity. Qed.

Lemma round_binary64_unfold s a b :
  (0 < a)%Z ->
  round_binary64 s a b =
  if (rmant a b =? 2 ^ prec)%Z then
    if (rexp a b + 1 <=? etop)%Z then S754_finite s (Z.to_pos (2 ^ (prec - 1))) (rexp a b + 1)
    else S754_infinity s
  else match rmant a b with
       | Zpos p => if (rexp a b <=? etop)%Z then S754_finite s p (rexp a b) else S754_infinity s
       | _ => S754_zero s
       end.
Proof.
  intros Ha. unfold round_binary64, rmant, rexp.
  destruct (Z.leb_spec a 0); [lia|].
  destruct (_ =? 2 ^ prec)%Z; reflexivity.
Qed.

Lemma rmant_error a b :
  (0 < b)%Z -> Rabs (IZR (rmant a b) * p2 (rexp a b) - IZR a / IZR b) <= p2 (rexp a b) / 2.
Proof.
  intros Hb. pose proof (scaled_rhe_error a b (rexp a b) Hb) as H.
  fold (rmant a b) in H. pose proof (p2_pos (rexp a b)) as Hp.
  set (t := IZR a / IZR b) in *. set (q := p2 (rexp a b)) in *.
  replace (IZR (rmant a b) * q - t) with ((IZR (rmant a b) - t / q) * q)
    by (field; lra).
  rewrite Rabs_mult, (Rabs_pos_eq q) by lra.
  apply Rmult_le_compat_r with (r := q) in H; lra.
Qed.

Lemma rmant_range a b :
  (0 < a)%Z -> (0 < b)%Z ->
  (0 <= rmant a b <= 2 ^ 53)%Z /\
  ((emin <= ilog2_ratio a b - 52)%Z -> (2 ^ 52 <= rmant a b)%Z) /\
  ((ilog2_ratio a b - 52 < emin)%Z -> (rmant a b <= 2 ^ 52)%Z).
Proof.
  intros Ha Hb.
  pose proof (ilog2_ratio_spec a b Ha Hb) as [HE1 HE2].
  pose proof (scaled_rhe_error a b (rexp a b) Hb) as Herr.
  pose proof (scaled_rhe_nonneg a b (rexp a b) ltac:(lia) Hb) as Hnn.
  fold (rmant a b) in Herr, Hnn.
  pose proof (p2_pos (rexp a b)) as Hq.
  rewrite p2_succ in HE2.
  apply Rabs_le_inv in Herr.
  set (t := IZR a / IZR b) in *. set (E := ilog2_ratio a b) in *.
  assert (Hv : t = t / p2 (rexp a b) * p2 (rexp a b)) by (field; lra).
  set (v := t / p2 (rexp a b)) in *.
  change (2 ^ 53)%Z with 9007199254740992%Z.
  change (2 ^ 52)%Z with 4503599627370496%Z.
  unfold rexp, prec in *. fold E in Hq, Hv, v.
  change (53 - 1)%Z with 52%Z in *.
  destruct (Z.max_spec (E - 52) emin) as [[Hlt Hmax]|[Hge Hmax]];
    rewrite Hmax in *.
  - (* subnormal range *)
    assert (Hle : 2 * p2 E <= p2 52 * p2 emin).
    { rewrite <- p2_add, <- p2_succ. apply p2_le. lia. }
    rewrite p2_52 in Hle.
    assert (v < 4503599627370496).
    { apply Rmult_lt_reg_r with (p2 emin); lra. }
    repeat split; try lia.
    + assert (rmant a b < 9007199254740993)%Z by (apply lt_IZR; lra). lia.
    + intros _. assert (rmant a b < 4503599627370497)%Z by (apply lt_IZR; lra). lia.
  - (* normal range *)
    assert (HpE : p2 E = p2 52 * p2 (E - 52)).
    { rewrite <- p2_add. f_equal. lia. }
    rewrite p2_52 in HpE.
    assert (4503599627370496 <= v < 9007199254740992).
    { split; [apply Rmult_le_reg_r with (p2 (E - 52))
             | apply Rmult_lt_reg_r with (p2 (E - 52))]; lra. }
    assert (4503599627370496 <= rmant a b)%Z.
    { assert (4503599627370495 < rmant a b)%Z by (apply lt_IZR; lra). lia. }
    repeat split; try lia.
    assert (rmant a b < 9007199254740993)%Z by (apply lt_IZR; lra). lia.
Qed.


Lemma canonical_intro (m : positive) e :
  (Zpos m < 2 ^ 53)%Z -> (2 ^ 52 <= Zpos m \/ e = emin)%Z ->
  (emin <= e <= etop)%Z -> canonical m e = true.
Proof.
  intros H1 H2 H3. unfold canonical, prec. change (53 - 1)%Z with 52%Z.
  rewrite !andb_true_iff, orb_true_iff.
  repeat split; try (apply Z.ltb_lt; lia); try (apply Z.leb_le; lia).
  destruct H2; [left; apply Z.leb_le | right; apply Z.eqb_eq]; lia.
Qed.

Lemma canonical_elim (m : positive) e :
  canonical m e = true ->
  (Zpos m < 2 ^ 53)%Z /\ (2 ^ 52 <= Zpos m \/ e = emin)%Z /\ (emin <= e <= etop)%Z.
Proof.
  unfold canonical, prec. change (53 - 1)%Z with 52%Z.
  rewrite !andb_true_iff, orb_true_iff.
  intros [[[H1 H2] H3] H4].
  apply Z.ltb_lt in H1. apply Z.leb_le in H3, H4.
  repeat split; lia.
Qed.

Lemma rexp_range a b : (emin <= rexp a b)%Z.
Proof. unfold rexp. lia. Qed.

(** What a finite result of [round_binary64] is. *)
Lemma round_binary64_finite s a b s' m e :
  (0 < b)%Z -> round_binary64 s a b = S754_finite s' m e ->
  s' = s /\ canonical m e = true /\ (0 < a)%Z /\
  (rexp a b <= e <= rexp a b + 1)%Z /\
  Rabs (IZR (Zpos m) * p2 e - IZR a / IZR b) <= p2 (rexp a b) / 2.
Proof.
  intros Hb H.
  assert (Ha : (0 < a)%Z).
  { unfold round_binary64 in H. destruct (Z.leb_spec a 0); [discriminate|lia]. }
  rewrite round_binary64_unfold in H by assumption.
  pose proof (rmant_range a b Ha Hb) as (Hr & Hnorm & Hsub).
  pose proof (rmant_error a b Hb) as Herr.
  pose proof (rexp_range a b) as He.
  change (2 ^ prec)%Z with (2 ^ 53)%Z in H.
  change (2 ^ (prec - 1))%Z with (2 ^ 52)%Z in H.
  destruct (Z.eqb_spec (rmant a b) (2 ^ 53)) as [Hc|Hc].
  - destruct (Z.leb_spec (rexp a b + 1) etop) as [Htop|Htop]; [|discriminate].
    injection H as <- <- <-.
    repeat split; try lia.
    + apply canonical_intro; simpl; lia.
    + rewrite Hc in Herr. rewrite p2_succ.
      change (IZR (Zpos (Z.to_pos (2 ^ 52)))) with 4503599627370496.
      change (IZR (2 ^ 53)) with 9007199254740992 in Herr.
      replace (4503599627370496 * (2 * p2 (rexp a b)))
        with (9007199254740992 * p2 (rexp a b)) by lra.
      exact Herr.
  - destruct (rmant a b) as [|p|p] eqn:Hm; try discriminate.
    destruct (Z.leb_spec (rexp a b) etop) as [Htop|Htop]; [|discriminate].
    injection H as <- <- <-.
    repeat split; try lia.
    + apply canonical_intro; try lia.
      unfold rexp, prec in *. change (53 - 1)%Z with 52%Z in *. lia.
    + exact Herr.
Qed.

(** The result is always a canonical encoding, with the requested sign. *)
Lemma round_binary64_valid s a b : (0 < b)%Z -> valid (round_binary64 s a b) = true.
Proof.
  intros Hb. destruct (round_binary64 s a b) eqn:H; try reflexivity.
  apply round_binary64_finite in H; [|assumption]. simpl. tauto.
Qed.

Lemma round_binary64_sign s a b :
  round_binary64 s a b = S754_zero s \/
  round_binary64 s a b = S754_infinity s \/
  exists m e, round_binary64 s a b = S754_finite s m e.
Proof.
  unfold round_binary64. destruct (a <=? 0)%Z; [now left|].
  destruct (_ =? 2 ^ prec)%Z.
  - change (2 ^ (prec - 1))%Z with (Zpos (Z.to_pos (2 ^ 52))).
    destruct (_ <=? etop)%Z; [right; right; eauto | right; now left].
  - destruct (rmant a b); [now left| |now left].
    destruct (_ <=? etop)%Z; [right; right; eauto | right; now left].
Qed.

(** A ratio below [2^1023] does not round to an infinity. *)
Lemma round_binary64_bounded s a b :
  (0 < b)%Z -> IZR a / IZR b < p2 1023 -> isfinite (round_binary64 s a b) = true.
Proof.
  intros Hb Hlt. destruct (Z.leb_spec a 0) as [Ha|Ha].
  { unfold round_binary64. destruct (Z.leb_spec a 0); [reflexivity|lia]. }
  rewrite round_binary64_unfold by assumption.
  pose proof (ilog2_ratio_spec a b Ha Hb) as [HE _].
  assert (ilog2_ratio a b < 1023)%Z by (apply p2_lt_inv; lra).
  assert (rexp a b <= 970)%Z.
  { unfold rexp, prec, emin. lia. }
  destruct (_ =? 2 ^ prec)%Z.
  - destruct (Z.leb_spec (rexp a b + 1) etop); [reflexivity|unfold etop in *; lia].
  - destruct (rmant a b); try reflexivity.
    destruct (Z.leb_spec (rexp a b) etop); [reflexivity|unfold etop in *; lia].
Qed.

(** A ratio strictly within half a unit in the last place of a float,
    and not in the narrower binade below a power of two, rounds to that
    float. *)
Lemma round_binary64_near s a b (m : positive) e :
  (0 < a)%Z -> (0 < b)%Z -> canonical m e = true ->
  Rabs (IZR a / IZR b - IZR (Zpos m) * p2 e) < p2 e / 2 ->
  (2 ^ 52 < Zpos m)%Z \/ e = emin \/ IZR (Zpos m) * p2 e <= IZR a / IZR b ->
  round_binary64 s a b = S754_finite s m e.
Proof.
  intros Ha Hb Hcan Hnear Hside.
  apply canonical_elim in Hcan. destruct Hcan as (Hm53 & Hm52 & He).
  pose proof (ilog2_ratio_spec a b Ha Hb) as [HE1 HE2].
  pose proof (p2_pos e) as Hpe.
  apply Rabs_lt_inv in Hnear.
  set (t := IZR a / IZR b) in *. set (E := ilog2_ratio a b) in *.
  assert (Hv : t = t / p2 e * p2 e) by (field; lra).
  set (v := t / p2 e) in *.
  assert (Hvm : IZR (Zpos m) - 1 / 2 < v < IZR (Zpos m) + 1 / 2).
  { split; apply Rmult_lt_reg_r with (p2 e); lra. }
  assert (Hm53' : IZR (Zpos m) <= 9007199254740991).
  { apply IZR_le. change (2 ^ 53)%Z with 9007199254740992%Z in Hm53. lia. }
  (* the exponent [round_binary64] chooses is [e] *)
  assert (Hexp : rexp a b = e).
  { unfold rexp, prec. change (53 - 1)%Z with 52%Z. fold E.
    assert (HEhi : (E < e + 53)%Z).
    { apply p2_lt_inv. rewrite p2_add, p2_53.
      apply Rle_lt_trans with t; [exact HE1|]. rewrite Hv.
      rewrite (Rmult_comm (p2 e)). apply Rmult_lt_compat_r; lra. }
    destruct (Z.eq_dec e emin) as [->|Hne]; [lia|].
    assert (Hm52' : 4503599627370496 <= IZR (Zpos m)).
    { apply IZR_le. change (2 ^ 52)%Z with 4503599627370496%Z in Hm52. lia. }
    assert (Hvlo : 4503599627370496 <= v).
    { destruct Hside as [Hs|[Hs|Hs]]; [|contradiction|].
      - assert (4503599627370497 <= IZR (Zpos m)).
        { apply IZR_le. change (2 ^ 52)%Z with 4503599627370496%Z in Hs. lia. }
        lra.
      - assert (IZR (Zpos m) <= v).
        { apply Rmult_le_reg_r with (p2 e); lra. }
        lra. }
    assert (HElo : (e + 52 < E + 1)%Z).
    { apply p2_lt_inv. rewrite (p2_add e 52), p2_52.
      apply Rle_lt_trans with t; [|exact HE2]. rewrite Hv.
      rewrite (Rmult_comm (p2 e)). apply Rmult_le_compat_r; lra. }
    lia. }
  assert (Hmant : rmant a b = Zpos m).
  { unfold rmant. rewrite Hexp. apply scaled_rhe_near; [assumption|].
    fold t v. apply Rabs_lt_intro. lra. }
  rewrite round_binary64_unfold by assumption.
  rewrite Hmant, Hexp.
  change (2 ^ prec)%Z with (2 ^ 53)%Z.
  destruct (Z.eqb_spec (Zpos m) (2 ^ 53)) as [Hc|Hc]; [lia|].
  destruct (Z.leb_spec e etop); [reflexivity|lia].
Qed.


(** ** The built-in [round] *)

Lemma pow10_range n : (0 <= n <= 15)%Z -> (1 <= 10 ^ n < 2 ^ 52)%Z.
Proof.
  intros Hn.
  assert (0 < 10 ^ n)%Z by (apply Z.pow_pos_nonneg; lia).
  assert (10 ^ n <= 10 ^ 15)%Z by (apply Z.pow_le_mono_r; lia).
  change (10 ^ 15)%Z with 1000000000000000%Z in *.
  change (2 ^ 52)%Z with 4503599627370496%Z. lia.
Qed.

Lemma round_decimal_value (m : positive) e n :
  IZR (Zpos m * 10 ^ n * 2 ^ Z.max 0 e) / IZR (2 ^ Z.max 0 (- e))
  = IZR (Zpos m) * p2 e * IZR (10 ^ n).
Proof.
  rewrite <- (p2_split e), !mult_IZR.
  pose proof (IZR_pow2_pos (- e)). field. lra.
Qed.

Lemma round_decimal_den_pos e : (0 < 2 ^ Z.max 0 (- e))%Z.
Proof. apply Z.pow_pos_nonneg; lia. Qed.

Lemma round_decimal_error (m : positive) e n :
  Rabs (IZR (round_decimal m e n) - IZR (Zpos m) * p2 e * IZR (10 ^ n)) <= 1 / 2.
Proof.
  unfold round_decimal. rewrite <- round_decimal_value.
  apply rhe_div_error, round_decimal_den_pos.
Qed.

Lemma round_decimal_near (m : positive) e n q :
  Rabs (IZR q - IZR (Zpos m) * p2 e * IZR (10 ^ n)) < 1 / 2 ->
  round_decimal m e n = q.
Proof.
  intros H. unfold round_decimal. apply rhe_div_near.
  - apply round_decimal_den_pos.
  - rewrite round_decimal_value. exact H.
Qed.

Lemma round_decimal_exact (m : positive) e n q :
  IZR q = IZR (Zpos m) * p2 e * IZR (10 ^ n) -> round_decimal m e n = q.
Proof.
  intros H. apply round_decimal_near. rewrite H, Rminus_diag, Rabs_R0. lra.
Qed.

(** Rounding a float that [round] produced gives it back: the decimal
    nearest to it converts to the same float. *)
Lemma round_trip s k n m1 e1 :
  (0 <= n <= 15)%Z ->
  round_binary64 s k (10 ^ n) = S754_finite s m1 e1 ->
  round_binary64 s (round_decimal m1 e1 n) (10 ^ n) = S754_finite s m1 e1.
Proof.
  intros Hn H. pose proof (pow10_range n Hn) as [HP1 HP2].
  pose proof H as H0.
  apply round_binary64_finite in H0; [|lia].
  destruct H0 as (_ & Hcan & Hk & He0 & Herr).
  set (P := (10 ^ n)%Z) in *. set (e0 := rexp k P) in *.
  pose proof (round_decimal_error m1 e1 n) as Hdec. fold P in Hdec.
  assert (HPR : 1 <= IZR P < 4503599627370496).
  { split; [apply IZR_le | apply IZR_lt]; assumption. }
  pose proof (p2_pos e0) as Hp0. pose proof (p2_pos e1) as Hp1.
  assert (Hp01 : p2 e0 <= p2 e1) by (apply p2_le; lia).
  pose proof (IZR_ratio k P _ ltac:(lia) eq_refl) as Hd.
  set (d := IZR k / IZR P) in *.
  set (y := IZR (Zpos m1) * p2 e1) in *.
  apply Rabs_le_inv in Herr. apply Rabs_le_inv in Hdec.
  destruct (Rlt_le_dec (IZR P * p2 e0) 1) as [HA|HB].
  - (* the float determines the decimal *)
    assert (Hsame : round_decimal m1 e1 n = k).
    { apply round_decimal_near. fold P y. apply Rabs_lt_intro.
      assert (- (p2 e0 / 2) * IZR P <= (y - d) * IZR P <= p2 e0 / 2 * IZR P).
      { split; apply Rmult_le_compat_r; lra. }
      lra. }
    rewrite Hsame. exact H.
  - (* the spacing of the floats exceeds that of the decimals *)
    assert (Hm1 : 1 <= IZR (Zpos m1)) by (apply IZR_le; lia).
    assert (HyP : 1 <= y * IZR P).
    { assert (p2 e1 * IZR P <= y * IZR P).
      { apply Rmult_le_compat_r; [lra|]. unfold y. nra. }
      nra. }
    set (k' := round_decimal m1 e1 n) in *.
    assert (Hk' : (0 < k')%Z) by (apply lt_IZR; lra).
    pose proof (IZR_ratio k' P _ ltac:(lia) eq_refl) as Hd'.
    set (d' := IZR k' / IZR P) in *.
    destruct (Req_dec (IZR k') (y * IZR P)) as [Heq|Hne].
    + assert (d' = y).
      { apply Rmult_eq_reg_r with (IZR P); lra. }
      apply round_binary64_near; try assumption; try lia.
      * fold d' y. replace (d' - y) with 0 by lra. rewrite Rabs_R0. lra.
      * right. right. fold d' y. lra.
    + assert (Hexact : forall q : Z, IZR q = y * IZR P -> False).
      { intros q Hq. apply Hne. rewrite <- Hq. f_equal.
        apply round_decimal_exact. exact Hq. }
      assert (Hne1 : IZR P * p2 e1 <> 1).
      { intros Hone. apply (Hexact (Zpos m1)). unfold y. nra. }
      assert (Hgt1 : 1 < IZR P * p2 e1) by nra.
      apply round_binary64_near; try assumption; try lia.
      * fold d' y. apply Rabs_lt_intro.
        split; apply Rmult_lt_reg_r with (IZR P); nra.
      * apply canonical_elim in Hcan. destruct Hcan as (_ & [Hnorm|Hsub] & _);
          [|right; left; exact Hsub].
        destruct (Z.eq_dec (Zpos m1) (2 ^ 52)) as [Hpow|Hpow]; [|left; lia].
        exfalso.
        assert (He1 : (- 52 < e1)%Z).
        { apply p2_lt_inv.
          replace (p2 (-52)) with (/ p2 52) by (rewrite <- p2_opp; reflexivity).
          rewrite p2_52.
          apply Rmult_lt_reg_r with 4503599627370496; [lra|].
          rewrite Rinv_l by lra. nra. }
        apply (Hexact (P * 2 ^ (52 + e1))%Z).
        rewrite mult_IZR, <- p2_Z by lia. rewrite p2_add, p2_52.
        unfold y. rewrite Hpow. change (IZR (2 ^ 52)) with 4503599627370496. lra.
Qed.

(** [round(round(x, n), n) == round(x, n)] *)
Lemma py_round_idempotent x n r :
  (0 <= n <= 15)%Z -> py_round x n = Some r -> py_round r n = Some r.
Proof.
  intros Hn H. destruct x as [sx|sx| |s m e]; simpl in H;
    try (injection H as <-; reflexivity).
  destruct (isfinite _) eqn:Hfin in H; [|discriminate].
  injection H as <-.
  destruct (round_binary64_sign s (round_decimal m e n) (10 ^ n)) as [Hz|[Hi|(m1 & e1 & Hf)]].
  - rewrite Hz. reflexivity.
  - rewrite Hi in Hfin. discriminate.
  - rewrite Hf. simpl. rewrite (round_trip s _ n m1 e1 Hn Hf). reflexivity.
Qed.

(** [round] does not raise on a finite float. *)
Lemma py_round_total x n :
  valid x = true -> isfinite x = true -> (0 <= n <= 15)%Z ->
  exists r, py_round x n = Some r /\ valid r = true /\ isfinite r = true.
Proof.
  intros Hv Hf Hn. destruct x as [sx|sx| |s m e]; try discriminate.
  { exists (S754_zero sx). repeat split. }
  pose proof (pow10_range n Hn) as [HP1 HP2].
  simpl in Hv. apply canonical_elim in Hv as Hcan.
  destruct Hcan as (Hm53 & _ & He).
  assert (Hfin : isfinite (round_binary64 s (round_decimal m e n) (10 ^ n)) = true).
  { destruct (Z_le_gt_dec 0 e) as [Hpos|Hneg].
    - (* an integer: the decimal is the float itself *)
      assert (Hk : round_decimal m e n = (Zpos m * 2 ^ e * 10 ^ n)%Z).
      { apply round_decimal_exact. rewrite !mult_IZR, <- p2_Z by lia. reflexivity. }
      rewrite Hk.
      assert (0 < 2 ^ e)%Z by (apply Z.pow_pos_nonneg; lia).
      erewrite round_binary64_near; [reflexivity| | |exact Hv| |].
      + apply Z.mul_pos_pos; [apply Z.mul_pos_pos|]; lia.
      + lia.
      + rewrite !mult_IZR, <- p2_Z by lia.
        assert (0 < IZR (10 ^ n)) by (apply IZR_lt; lia).
        replace (IZR (Zpos m) * p2 e * IZR (10 ^ n) / IZR (10 ^ n) - IZR (Zpos m) * p2 e)
          with 0 by (field; lra).
        rewrite Rabs_R0. pose proof (p2_pos e). lra.
      + right. right. rewrite !mult_IZR, <- p2_Z by lia.
        assert (0 < IZR (10 ^ n)) by (apply IZR_lt; lia).
        apply Req_le. field. lra.
    - (* below 2^52 *)
      apply round_binary64_bounded; [lia|].
      pose proof (round_decimal_error m e n) as Hdec.
      apply Rabs_le_inv in Hdec.
      assert (HPR : 1 <= IZR (10 ^ n)) by (apply IZR_le; lia).
      assert (Hm : IZR (Zpos m) < 9007199254740992).
      { apply IZR_lt. change (2 ^ 53)%Z with 9007199254740992%Z in Hm53. lia. }
      assert (Hpe : 2 * p2 e <= 1).
      { rewrite <- p2_succ. change 1 with (p2 0). apply p2_le. lia. }
      pose proof (p2_pos e) as Hpe0.
      assert (Hy : IZR (Zpos m) * p2 e < 4503599627370496) by nra.
      assert (Hbig : 9007199254740992 <= p2 1023).
      { rewrite <- p2_53. apply p2_le. lia. }
      apply Rmult_lt_reg_r with (IZR (10 ^ n)); [lra|].
      unfold Rdiv. rewrite Rmult_assoc, Rinv_l by lra. nra. }
  eexists. simpl. rewrite Hfin. repeat split; [|exact Hfin].
  apply round_binary64_valid. lia.
Qed.

(** ** Products, draws and signs *)

Lemma round_dyadic_valid s m e : valid (round_dyadic s m e) = true.
Proof.
  apply round_binary64_valid. apply Z.pow_pos_nonneg; lia.
Qed.

Lemma mul_valid x y : valid (mul x y) = true.
Proof.
  destruct x, y; try reflexivity. apply round_dyadic_valid.
Qed.

Lemma uniform_valid k : valid (Py.uniform k) = true.
Proof. apply round_dyadic_valid. Qed.

Lemma uniform_finite k : isfinite (Py.uniform k) = true.
Proof.
  unfold Py.uniform, round_dyadic. apply round_binary64_bounded.
  - apply Z.pow_pos_nonneg; lia.
  - change (2 ^ Z.max 0 (-53))%Z with 1%Z.
    change (2 ^ Z.max 0 (- -53))%Z with (2 ^ 53)%Z.
    pose proof (Z.mod_pos_bound k (2 ^ 53) ltac:(lia)) as [_ Hk].
    rewrite Z.mul_1_r. apply IZR_lt in Hk.
    assert (Hbig : (p2 0 <= p2 1023)%R) by (apply p2_le; lia).
    rewrite p2_0 in Hbig.
    change (IZR (2 ^ 53)) with 9007199254740992%R in *.
    apply Rlt_le_trans with 1%R; [|exact Hbig].
    apply Rmult_lt_reg_r with 9007199254740992%R; [lra|].
    unfold Rdiv. rewrite Rmult_assoc, Rinv_l by lra. lra.
Qed.

(** [0 <= x] holds of the zeros and of the floats with a clear sign
    bit, NaN excepted. *)
Lemma nonneg_spec x :
  nonneg x = true <->
  match x with
  | S754_zero _ => True
  | S754_infinity s | S754_finite s _ _ => s = false
  | S754_nan => False
  end.
Proof.
  unfold nonneg, leb, compare, zero, common_exponent.
  destruct x as [s|s| |s m e]; simpl.
  - tauto.
  - destruct s; split; congruence.
  - split; [discriminate|contradiction].
  - rewrite Z.min_id, Z.sub_diag. change (2 ^ 0)%Z with 1%Z.
    destruct s; simpl; split; congruence.
Qed.

Lemma round_binary64_nonneg a b : nonneg (round_binary64 false a b) = true.
Proof.
  apply nonneg_spec.
  destruct (round_binary64_sign false a b) as [H|[H|(m & e & H)]];
    rewrite H; trivial.
Qed.

Lemma round_int_nonneg d e : (0 <= d)%Z -> nonneg (round_int d e) = true.
Proof.
  intros Hd. destruct d as [|p|p]; [reflexivity| |lia].
  apply round_binary64_nonneg.
Qed.

(** The difference of two ordered floats is non-negative, or NaN when
    both are the same infinity. *)
Lemma sub_nonneg x y :
  leb y x = true -> sub x y = S754_nan \/ nonneg (sub x y) = true.
Proof.
  intros Hle.
  destruct x as [sx|sx| |sx mx ex], y as [sy|sy| |sy my ey];
    try discriminate Hle.
  9: { (* two finite floats *)
    right. unfold sub. apply round_int_nonneg.
    unfold leb, compare in Hle.
    replace (common_exponent (S754_finite sy my ey) (S754_finite sx mx ex))
      with (common_exponent (S754_finite sx mx ex) (S754_finite sy my ey)) in Hle
      by (unfold common_exponent; simpl; apply Z.min_comm).
    destruct (Z.compare_spec
                (scaled (S754_finite sy my ey)
                   (common_exponent (S754_finite sx mx ex) (S754_finite sy my ey)))
                (scaled (S754_finite sx mx ex)
                   (common_exponent (S754_finite sx mx ex) (S754_finite sy my ey))));
      [lia|lia|discriminate Hle]. }
  all: unfold leb, compare, common_exponent in Hle; simpl in Hle;
    rewrite ?Z.min_id, ?Z.sub_diag in Hle;
    try destruct sx; try destruct sy; simpl in Hle; try discriminate Hle;
    first [ left; reflexivity | right; apply nonneg_spec; simpl; trivial ].
Qed.

Lemma mul_nonneg x y :
  nonneg x = true -> nonneg y = true -> mul x y = S754_nan \/ nonneg (mul x y) = true.
Proof.
  intros Hx Hy. apply nonneg_spec in Hx, Hy.
  destruct x as [sx|sx| |sx mx ex], y as [sy|sy| |sy my ey];
    try contradiction; try (left; reflexivity); subst; right;
    try (apply nonneg_spec; simpl; trivial; fail).
  apply round_binary64_nonneg.
Qed.

Lemma nan_mul_l y : mul S754_nan y = S754_nan.
Proof. reflexivity. Qed.

Lemma py_round_nonneg x n r :
  nonneg x = true -> py_round x n = Some r -> nonneg r = true.
Proof.
  intros Hx H. apply nonneg_spec in Hx.
  destruct x as [s|s| |s m e]; try contradiction;
    try (injection H as <-; apply nonneg_spec; assumption).
  subst s. simpl in H. destruct (isfinite _); [|discriminate].
  injection H as <-. apply round_binary64_nonneg.
Qed.

Lemma py_round_isfinite x n r :
  py_round x n = Some r -> isfinite r = isfinite x.
Proof.
  destruct x as [s|s| |s m e]; simpl; intros H;
    try (injection H as <-; reflexivity).
  destruct (isfinite _) eqn:Hf; [|discriminate]. injection H as <-. exact Hf.
Qed.

Lemma py_round_has_decimals x n r :
  isfinite x = true -> py_round x n = Some r -> has_decimals n r.
Proof.
  intros Hf H. destruct x as [s|s| |s m e]; try discriminate; simpl in H.
  - injection H as <-. exists s, 0%Z. reflexivity.
  - destruct (isfinite (round_binary64 _ _ _)); [|discriminate].
    injection H as <-. eexists _, _. reflexivity.
Qed.

End FloatFacts.

(* ===================================================================== *)
(** * The float layer on sample operands *)
(* ===================================================================== *)

Module FloatExamples.

(** The model agrees with the Standard Library's executable specification
    of binary64 on sample operands. *)
Example sub_agrees_with_SFsub :
  let a := PyFloat.of_ratio 17000000001234 10000 in
  let b := PyFloat.of_ratio 17000000000001 10000 in
  PyFloat.sub a b = SFsub 53 1024 a b /\
  PyFloat.sub b a = SFsub 53 1024 b a /\
  PyFloat.mul (PyFloat.sub a b) (PyFloat.of_Z 1000)
  = SFmul 53 1024 (SFsub 53 1024 a b) (binary_normalize 53 1024 1000 0 false) /\
  PyFloat.valid a = valid_binary 53 1024 a /\
  PyFloat.leb b a = SFleb b a.
Proof. vm_compute. repeat split. Qed.

Example round_examples :
  PyFloat.py_round (PyFloat.of_ratio 123456 1000000) 4 = Some (PyFloat.of_ratio 1235 10000) /\
  PyFloat.py_round (PyFloat.of_ratio 125 1000) 2 = Some (PyFloat.of_ratio 12 100) /\
  PyFloat.py_round (PyFloat.of_ratio 2675 1000) 2 = Some (PyFloat.of_ratio 267 100) /\
  PyFloat.py_round (PyFloat.of_ratio 1 3) 2 = Some (PyFloat.of_ratio 33 100).
Proof. vm_compute. repeat split. Qed.

(** Values CPython computes, by sign, mantissa and exponent. *)
Example round_agrees_with_cpython :
  (* round(0.123456, 4) = 0.1235 *)
  PyFloat.py_round (S754_finite false 8895942329546431 (-56)) 4
  = Some (S754_finite false 8899112863684100 (-56)) /\
  (* round(0.99995, 4) = 1.0 *)
  PyFloat.py_round (S754_finite false 9006748894778255 (-53)) 4
  = Some (S754_finite false 4503599627370496 (-52)) /\
  (* round(5e-05, 4) = 0.0001 *)
  PyFloat.py_round (S754_finite false 7378697629483821 (-67)) 4
  = Some (S754_finite false 7378697629483821 (-66)) /\
  (* round(0.125, 2) = 0.12 *)
  PyFloat.py_round (S754_finite false 4503599627370496 (-55)) 2
  = Some (S754_finite false 8646911284551352 (-56)) /\
  (* round(2.675, 2) = 2.67 *)
  PyFloat.py_round (S754_finite false 6023564501608038 (-51)) 2
  = Some (S754_finite false 6012305502539612 (-51)) /\
  (* round(-0.001, 2) = -0.0 *)
  PyFloat.py_round (S754_finite true 4611686018427388 (-62)) 2
  = Some (S754_zero true) /\
  (* round(7.0049999, 2) = 7.0 *)
  PyFloat.py_round (S754_finite false 7886928734842590 (-50)) 2
  = Some (S754_finite false 7881299347898368 (-50)) /\
  (* round(1000000000000000.1, 2) = 1000000000000000.1 *)
  PyFloat.py_round (S754_finite false 8000000000000001 (-3)) 2
  = Some (S754_finite false 8000000000000001 (-3)) /\
  (* round(70368744177664.02, 2) = 70368744177664.02 *)
  PyFloat.py_round (S754_finite false 4503599627370497 (-6)) 2
  = Some (S754_finite false 4503599627370497 (-6)) /\
  (* round(1.7976931348623157e+308, 2) = 1.7976931348623157e+308 *)
  PyFloat.py_round (S754_finite false 9007199254740991 971) 2
  = Some (S754_finite false 9007199254740991 971) /\
  (* round(5e-324, 4) = 0.0 *)
  PyFloat.py_round (S754_finite false 1 (-1074)) 4 = Some (S754_zero false).
Proof. vm_compute. repeat split. Qed.

Example arithmetic_agrees_with_cpython :
  (* 1700000000.1234567 - 1700000000.0000012 = 0.12345552444458008 *)
  PyFloat.sub (S754_finite false 7130316800517815 (-22))
              (S754_finite false 7130316800000005 (-22))
  = S754_finite false 8895908062167040 (-56) /\
  (* 0.1 - 0.3 = -0.19999999999999998 *)
  PyFloat.sub (S754_finite false 7205759403792794 (-56))
              (S754_finite false 5404319552844595 (-54))
  = S754_finite true 7205759403792793 (-55) /\
  (* 1e+308 - -1e+308 = inf *)
  PyFloat.sub (S754_finite false 5010420900022432 971)
              (S754_finite true 5010420900022432 971)
  = S754_infinity false /\
  (* 5e-324 - 5e-324 = 0.0 *)
  PyFloat.sub (S754_finite false 1 (-1074)) (S754_finite false 1 (-1074))
  = S754_zero false /\
  (* 0.1234567 * 1000 = 123.4567 *)
  PyFloat.mul (S754_finite false 8895992769862258 (-56)) (PyFloat.of_Z 1000)
  = S754_finite false 8687492939318611 (-46) /\
  (* 1.7e+305 * 1000 = 1.7000000000000001e+308 *)
  PyFloat.mul (S754_finite false 8722140702759050 961) (PyFloat.of_Z 1000)
  = S754_finite false 8517715530038135 971 /\
  (* 3e-322 * 1000 = 3.0138e-319 *)
  PyFloat.mul (S754_finite false 61 (-1074)) (PyFloat.of_Z 1000)
  = S754_finite false 61000 (-1074) /\
  (* 0.85 *)
  PyFloat.of_ratio 85 100 = S754_finite false 7656119366529843 (-53).
Proof. vm_compute. repeat split. Qed.

End FloatExamples.

(* ===================================================================== *)
(** * Facts about the routes *)
(* ===================================================================== *)

Module MainFacts.

Import PyFloat Py Main FloatFacts.
Local Open Scope string_scope.

#[local] Opaque py_round uniform mul sub of_Z.

Section Routes.

Variable fw : Framework.

(** An empty feature list: the 400 raised inside the [try] is caught
    by [except Exception] and raised again as a 500. *)
Lemma predict_empty mv w :
  predict fw (mkPredictionRequest [] mv) w =
  (inr (HTTPException 500
          ("Prediction failed: " ++
           http_exception_str fw 400 "Features cannot be empty")),
   mkWorld (clock w) (S (ticks w)) (rng w) (draws w)).
Proof. reflexivity. Qed.

(** A non-empty feature list: the result is computed from the clock
    and the generator alone. *)
Lemma predict_nonempty request w :
  features request <> [] ->
  predict fw request w =
  (match py_round (uniform (rng w (draws w))) 4,
         py_round (uniform (rng w (S (draws w)))) 4,
         py_round (elapsed_ms w) 2 with
   | Some p, Some q, Some t => inl (prediction_dict p q t)
   | _, _, _ =>
       inr (HTTPException 500
              "Prediction failed: rounded value too large to represent")
   end,
   after_predict w).
Proof.
  intros Hne. destruct request as [[|f fs] mv]; [contradiction|].
  unfold predict, bind, try_except, ret, raise, lift, time_time,
    np_random_random, reshape_row, round, elapsed_ms, after_predict,
    prediction_dict, str_exn, OverflowError.
  simpl.
  repeat match goal with
         | |- context [match py_round ?x ?n with _ => _ end] =>
             destruct (py_round x n)
         end; reflexivity.
Qed.

Lemma respond_prediction_dict p q t :
  respond_with (response_model_PredictionResponse fw) (prediction_dict p q t) =
  if isfinite p && isfinite q && isfinite t
  then mkResponse 200 (JsonBody (VDict (prediction_dict p q t)))
  else mkResponse 500 InternalServerError.
Proof.
  unfold respond_with, response_model_PredictionResponse, json_response,
    prediction_dict. simpl.
  destruct (isfinite p), (isfinite q), (isfinite t); reflexivity.
Qed.

(** The draws round without raising, to finite values. *)
Lemma round_draw k :
  exists p, py_round (uniform k) 4 = Some p /\ isfinite p = true.
Proof.
  destruct (py_round_total (uniform k) 4 (uniform_valid k) (uniform_finite k)
              ltac:(lia)) as (p & Hp & _ & Hf).
  eauto.
Qed.

(** Every 200 response of [POST /predict]. *)
Lemma post_predict_200 raw w resp w' :
  post_predict fw raw w = (resp, w') -> status resp = 200%Z ->
  exists request p q t,
    validate_PredictionRequest fw raw = Some request /\
    features request <> [] /\
    py_round (uniform (rng w (draws w))) 4 = Some p /\
    py_round (uniform (rng w (S (draws w)))) 4 = Some q /\
    py_round (elapsed_ms w) 2 = Some t /\
    isfinite p = true /\ isfinite q = true /\ isfinite t = true /\
    resp = mkResponse 200 (JsonBody (VDict (prediction_dict p q t))) /\
    w' = after_predict w.
Proof.
  unfold post_predict. intros H Hs.
  destruct (validate_PredictionRequest fw raw) as [request|] eqn:Hv.
  2: { injection H as <- <-. discriminate Hs. }
  destruct (features request) as [|f fs] eqn:Hf.
  { destruct request as [fs0 mv]. simpl in Hf. subst fs0.
    rewrite predict_empty in H. injection H as <- <-. discriminate Hs. }
  rewrite predict_nonempty in H by (rewrite Hf; discriminate).
  destruct (py_round (uniform (rng w (draws w))) 4) as [p|] eqn:Hp;
    [|injection H as <- <-; discriminate Hs].
  destruct (py_round (uniform (rng w (S (draws w)))) 4) as [q|] eqn:Hq;
    [|injection H as <- <-; discriminate Hs].
  destruct (py_round (elapsed_ms w) 2) as [t|] eqn:Ht;
    [|injection H as <- <-; discriminate Hs].
  rewrite respond_prediction_dict in H.
  destruct (isfinite p) eqn:Fp, (isfinite q) eqn:Fq, (isfinite t) eqn:Ft;
    simpl in H; injection H as <- <-; try discriminate Hs.
  exists request, p, q, t. rewrite Hf.
  repeat split; try reflexivity; try assumption. discriminate.
Qed.

(** A valid request with a non-empty feature list is answered 200
    whenever the measured latency is a finite number. *)
Lemma post_predict_nonempty raw request w :
  validate_PredictionRequest fw raw = Some request ->
  features request <> [] ->
  isfinite (elapsed_ms w) = true ->
  exists p q t,
    py_round (uniform (rng w (draws w))) 4 = Some p /\
    py_round (uniform (rng w (S (draws w)))) 4 = Some q /\
    py_round (elapsed_ms w) 2 = Some t /\
    post_predict fw raw w =
    (mkResponse 200 (JsonBody (VDict (prediction_dict p q t))), after_predict w).
Proof.
  intros Hv Hne Hfin. unfold post_predict. rewrite Hv.
  rewrite predict_nonempty by assumption.
  destruct (round_draw (rng w (draws w))) as (p & Hp & Fp).
  destruct (round_draw (rng w (S (draws w)))) as (q & Hq & Fq).
  destruct (py_round_total (elapsed_ms w) 2 (mul_valid _ _) Hfin ltac:(lia))
    as (t & Ht & _ & Ft).
  exists p, q, t. rewrite Hp, Hq, Ht, respond_prediction_dict, Fp, Fq, Ft.
  repeat split.
Qed.

(** The response to a request with a non-empty feature list depends
    on the state only. *)
Lemma post_predict_nonempty_same raw raw' request request' w :
  validate_PredictionRequest fw raw = Some request ->
  validate_PredictionRequest fw raw' = Some request' ->
  features request <> [] -> features request' <> [] ->
  post_predict fw raw w = post_predict fw raw' w.
Proof.
  intros Hv Hv' Hne Hne'. unfold post_predict. rewrite Hv, Hv'.
  rewrite !predict_nonempty by assumption. reflexivity.
Qed.

End Routes.

End MainFacts.

(* ===================================================================== *)
(** * The prediction-response contract *)
(* ===================================================================== *)

Module MainSpec.

Import PyFloat Py Main FloatFacts MainFacts.
Local Open Scope string_scope.

(** C1.  No response of [POST /predict] has a [confidence] field, the
    200 response included: with the array body [[1.0, 2.0, 3.0, 4.0]] the
    answer is 200 and its body holds the four fields of
    [PredictionResponse] only, [probability] being a single number.  This
    is against the assertion of [tests/test_api.py] and unlike
    [MLModel.predict]. *)
Theorem predict_response_lacks_confidence (fw : Framework) (raw : value) (w : World) :
  match content (fst (post_predict fw raw w)) with
  | JsonBody (VDict d) => contains d "confidence" = false
  | _ => True
  end /\
  status (fst (post_predict fw Sample.array_body Sample.world)) = 200 /\
  exists p q t,
    content (fst (post_predict fw Sample.array_body Sample.world))
    = JsonBody (VDict [ ("prediction", VNum p); ("probability", VNum q);
                        ("model_version", VStr "v1.0.0");
                        ("inference_time_ms", VNum t) ]).
Proof.
  split.
  - unfold post_predict.
    destruct (validate_PredictionRequest fw raw) as [[[|f fs] mv]|]; [| |exact I].
    + rewrite predict_empty. reflexivity.
    + rewrite predict_nonempty by discriminate.
      destruct (py_round (uniform (rng w (draws w))) 4) as [p|]; [|reflexivity].
      destruct (py_round (uniform (rng w (S (draws w)))) 4) as [q|]; [|reflexivity].
      destruct (py_round (elapsed_ms w) 2) as [t|]; [|reflexivity].
      cbn [fst]. rewrite respond_prediction_dict.
      destruct (isfinite p && isfinite q && isfinite t); [reflexivity|exact I].
  - vm_compute. split; [reflexivity|]. eexists _, _, _. reflexivity.
Qed.

(** C2.  An empty feature list is answered 500: the
    [HTTPException(400)] raised by the emptiness check is caught by the
    handler's own [except Exception] and replaced, whatever the request's
    [model_version]; so [POST /predict] with [{"features": []}] gets
    status 500.  The empty mapping [{"features": {}}] is answered 422. *)
Theorem empty_feature_list_answered_500 (fw : Framework) (mv : string) (w : World) :
  fst (predict fw (mkPredictionRequest [] mv) w) =
  inr (HTTPException 500
         ("Prediction failed: " ++
          http_exception_str fw 400 "Features cannot be empty")) /\
  fst (post_predict fw Sample.empty_array_body w) =
  mkResponse 500
    (JsonBody (VDict [("detail",
       VStr ("Prediction failed: " ++
             http_exception_str fw 400 "Features cannot be empty"))])) /\
  fst (post_predict fw Sample.empty_object_body w) = mkResponse 422 ValidationErrors.
Proof.
  split; [|split].
  - rewrite predict_empty. reflexivity.
  - unfold post_predict.
    change (validate_PredictionRequest fw Sample.empty_array_body)
      with (Some (mkPredictionRequest [] "v1.0")).
    cbv beta iota. rewrite predict_empty. reflexivity.
  - reflexivity.
Qed.

(** C3.  [POST /predict] with the object form
    [{"features": {name: number, ...}}] is answered 422, whatever the
    mapping and the other keys of the body: [features] is declared
    [List[float]], and a mapping is not a valid list. *)
Theorem object_form_is_rejected
    (fw : Framework) (entries mapping : dict) (w : World) :
  lookup "features" entries = Some (VDict mapping) ->
  post_predict fw (VDict entries) w = (mkResponse 422 ValidationErrors, w).
Proof.
  intros Hfeatures. unfold post_predict, validate_PredictionRequest.
  rewrite Hfeatures. reflexivity.
Qed.

Lemma object_form_is_rejected_witness :
  post_predict Sample.strict Sample.object_body Sample.world
  = (mkResponse 422 ValidationErrors, Sample.world).
Proof.
  apply (object_form_is_rejected Sample.strict _
           [ ("feature1", VNum (of_Z 1)); ("feature2", VNum (of_Z 2));
             ("feature3", VNum (of_Z 3)); ("feature4", VNum (of_Z 4)) ]).
  reflexivity.
Defined.

(** C4, as the specification states it, fails: the request
    [{"features": [NaN]}] validates, holds a non-finite value and is
    answered 200. *)
Lemma nan_feature_is_answered_200 :
  validate_PredictionRequest Sample.strict Sample.nan_body
  = Some (mkPredictionRequest [S754_nan] "v1.0") /\
  existsb (fun x => negb (isfinite x)) [S754_nan] = true /\
  status (fst (post_predict Sample.strict Sample.nan_body Sample.world)) = 200.
Proof. vm_compute. repeat split. Qed.

(** C4, amended.  A request that holds a non-finite feature value is not
    rejected: the handler checks emptiness only, and the request is
    answered 200 whenever the measured latency is a finite number. *)
Theorem non_finite_features_are_not_rejected
    (fw : Framework) (raw : value) (request : PredictionRequest) (w : World) :
  validate_PredictionRequest fw raw = Some request ->
  existsb (fun x => negb (isfinite x)) (features request) = true ->
  isfinite (elapsed_ms w) = true ->
  status (fst (post_predict fw raw w)) = 200.
Proof.
  intros Hv Hnf Hfin.
  assert (Hne : features request <> []).
  { intros He. rewrite He in Hnf. discriminate. }
  destruct (post_predict_nonempty fw raw request w Hv Hne Hfin)
    as (p & q & t & _ & _ & _ & ->).
  reflexivity.
Qed.

Lemma non_finite_features_witness :
  status (fst (post_predict Sample.strict Sample.nan_body Sample.world)) = 200.
Proof.
  apply (non_finite_features_are_not_rejected Sample.strict Sample.nan_body
           (mkPredictionRequest [S754_nan] "v1.0") Sample.world);
    vm_compute; reflexivity.
Defined.

(** C6.  Two valid requests with non-empty feature lists, handled in the
    same state of the clock and the generator, get the same response:
    the feature values are never read. *)
Theorem features_do_not_influence_response
    (fw : Framework) (raw raw' : value) (request request' : PredictionRequest)
    (w : World) :
  validate_PredictionRequest fw raw = Some request ->
  validate_PredictionRequest fw raw' = Some request' ->
  features request <> [] -> features request' <> [] ->
  post_predict fw raw w = post_predict fw raw' w.
Proof. apply post_predict_nonempty_same. Qed.

Lemma features_do_not_influence_response_witness :
  post_predict Sample.strict Sample.array_body Sample.world
  = post_predict Sample.strict Sample.nan_body Sample.world.
Proof.
  apply (features_do_not_influence_response Sample.strict
           Sample.array_body Sample.nan_body
           (mkPredictionRequest [of_Z 1; of_Z 2; of_Z 3; of_Z 4] "v1.0")
           (mkPredictionRequest [S754_nan] "v1.0") Sample.world);
    solve [vm_compute; reflexivity | discriminate].
Defined.

(** C8.  In a 200 response of [POST /predict], [prediction] and
    [probability] are floats nearest to a decimal with 4 digits after the
    point and [inference_time_ms] one nearest to a decimal with 2, and
    rounding each again to the same number of digits returns it
    unchanged. *)
Theorem response_numbers_are_rounded
    (fw : Framework) (raw : value) (w w' : World) (resp : Response) :
  post_predict fw raw w = (resp, w') -> status resp = 200 ->
  exists p q t,
    content resp = JsonBody (VDict (prediction_dict p q t)) /\
    has_decimals 4 p /\ has_decimals 4 q /\ has_decimals 2 t /\
    py_round p 4 = Some p /\ py_round q 4 = Some q /\ py_round t 2 = Some t.
Proof.
  intros H Hs.
  destruct (post_predict_200 fw raw w resp w' H Hs)
    as (request & p & q & t & _ & _ & Hp & Hq & Ht & Fp & Fq & Ft & -> & _).
  exists p, q, t. repeat split.
  - exact (py_round_has_decimals _ _ _ (uniform_finite _) Hp).
  - exact (py_round_has_decimals _ _ _ (uniform_finite _) Hq).
  - apply (py_round_has_decimals (elapsed_ms w)); [|exact Ht].
    rewrite <- (py_round_isfinite _ _ _ Ht). exact Ft.
  - exact (py_round_idempotent _ 4 _ ltac:(lia) Hp).
  - exact (py_round_idempotent _ 4 _ ltac:(lia) Hq).
  - exact (py_round_idempotent _ 2 _ ltac:(lia) Ht).
Qed.

Lemma response_numbers_are_rounded_witness :
  exists p q t,
    content (fst (post_predict Sample.strict Sample.array_body Sample.world))
    = JsonBody (VDict (prediction_dict p q t)) /\
    has_decimals 4 p /\ has_decimals 4 q /\ has_decimals 2 t /\
    py_round p 4 = Some p /\ py_round q 4 = Some q /\ py_round t 2 = Some t.
Proof.
  apply (response_numbers_are_rounded Sample.strict Sample.array_body
           Sample.world (snd (post_predict Sample.strict Sample.array_body Sample.world))).
  - apply surjective_pairing.
  - vm_compute. reflexivity.
Defined.

(** C9.  A 200 response of [POST /predict] carries
    [model_version = "v1.0.0"], and a request that differs in its own
    [model_version] only (by default ["v1.0"]) gets the same response. *)
Theorem model_version_is_configured
    (fw : Framework) (raw raw' : value) (request request' : PredictionRequest)
    (w w' : World) (resp : Response) :
  validate_PredictionRequest fw raw = Some request ->
  validate_PredictionRequest fw raw' = Some request' ->
  features request' = features request ->
  post_predict fw raw w = (resp, w') -> status resp = 200 ->
  (exists d, content resp = JsonBody (VDict d) /\
             lookup "model_version" d = Some (VStr "v1.0.0")) /\
  post_predict fw raw' w = (resp, w') /\
  option_map model_version (validate_PredictionRequest fw Sample.array_body) = Some "v1.0".
Proof.
  intros Hv Hv' Hf H Hs.
  destruct (post_predict_200 fw raw w resp w' H Hs)
    as (request0 & p & q & t & Hv0 & Hne & _ & _ & _ & _ & _ & _ & -> & _).
  rewrite Hv in Hv0. injection Hv0 as <-.
  repeat split.
  - eexists. split; reflexivity.
  - rewrite <- H. apply (post_predict_nonempty_same fw raw' raw request' request);
      try assumption. rewrite Hf. exact Hne.
Qed.

Lemma model_version_is_configured_witness :
  (exists d,
      content (fst (post_predict Sample.strict Sample.array_body Sample.world))
      = JsonBody (VDict d) /\
      lookup "model_version" d = Some (VStr "v1.0.0")) /\
  post_predict Sample.strict Sample.versioned_body Sample.world
  = (fst (post_predict Sample.strict Sample.array_body Sample.world),
     snd (post_predict Sample.strict Sample.array_body Sample.world)) /\
  option_map model_version
    (validate_PredictionRequest Sample.strict Sample.array_body) = Some "v1.0".
Proof.
  apply (model_version_is_configured Sample.strict
           Sample.array_body Sample.versioned_body
           (mkPredictionRequest [of_Z 1; of_Z 2; of_Z 3; of_Z 4] "v1.0")
           (mkPredictionRequest [of_Z 1; of_Z 2; of_Z 3; of_Z 4] "v9.9")
           Sample.world).
  - vm_compute. reflexivity.
  - vm_compute. reflexivity.
  - reflexivity.
  - apply surjective_pairing.
  - vm_compute. reflexivity.
Defined.

(** C10.  In a 200 response of [POST /predict], [inference_time_ms] is
    the rounded difference, in milliseconds, between the clock reading
    taken after the prediction is computed and the one taken before the
    handler's [try]; when the second reading is not below the first, it
    is a finite number and not negative. *)
Theorem inference_time_is_non_negative
    (fw : Framework) (raw : value) (w w' : World) (resp : Response) :
  post_predict fw raw w = (resp, w') -> status resp = 200 ->
  leb (clock w (ticks w)) (clock w (S (ticks w))) = true ->
  exists p q t,
    content resp = JsonBody (VDict (prediction_dict p q t)) /\
    py_round (elapsed_ms w) 2 = Some t /\
    isfinite t = true /\ nonneg t = true.
Proof.
  intros H Hs Hmono.
  destruct (post_predict_200 fw raw w resp w' H Hs)
    as (request & p & q & t & _ & _ & _ & _ & Ht & _ & _ & Ft & -> & _).
  exists p, q, t. repeat split; try assumption.
  assert (Hfin : isfinite (elapsed_ms w) = true).
  { rewrite <- (py_round_isfinite _ _ _ Ht). exact Ft. }
  apply (py_round_nonneg (elapsed_ms w) 2); [|exact Ht].
  unfold elapsed_ms in *.
  destruct (sub_nonneg _ _ Hmono) as [Hnan|Hsub].
  { rewrite Hnan in Hfin. discriminate Hfin. }
  destruct (mul_nonneg _ (of_Z 1000) Hsub ltac:(vm_compute; reflexivity))
    as [Hnan|Hmul]; [|exact Hmul].
  rewrite Hnan in Hfin. discriminate Hfin.
Qed.

Lemma inference_time_is_non_negative_witness :
  exists p q t,
    content (fst (post_predict Sample.strict Sample.array_body Sample.world))
    = JsonBody (VDict (prediction_dict p q t)) /\
    py_round (elapsed_ms Sample.world) 2 = Some t /\
    isfinite t = true /\ nonneg t = true.
Proof.
  apply (inference_time_is_non_negative Sample.strict Sample.array_body
           Sample.world (snd (post_predict Sample.strict Sample.array_body Sample.world))).
  - apply surjective_pairing.
  - vm_compute. reflexivity.
  - vm_compute. reflexivity.
Defined.

(** C5.  [GET /model/info] is answered 200 with the keys [name],
    [version], [framework], [description] and [metrics]: the keys
    [model_type], [model_path] and [is_loaded], which
    [tests/test_api.py] asserts and [MLModel.get_model_info] returns,
    are absent. *)
Theorem model_info_route_lacks_adapter_keys :
  get_model_info = mkResponse 200 (JsonBody (VDict model_info)) /\
  keys model_info = ["name"; "version"; "framework"; "description"; "metrics"] /\
  contains model_info "model_type" = false /\
  contains model_info "model_path" = false /\
  contains model_info "is_loaded" = false.
Proof. vm_compute. repeat split. Qed.

(** [GET /health] is answered 200 with [status = "healthy"] and
    [model_loaded = true]. *)
Theorem health_is_always_healthy :
  get_health =
  mkResponse 200 (JsonBody (VDict [ ("status", VStr "healthy");
                                    ("model_loaded", VBool true);
                                    ("version", VStr "v1.0.0") ])).
Proof. reflexivity. Qed.

(** [GET /] is answered 200 with a body that has the key [message]. *)
Theorem root_has_message :
  get_root = mkResponse 200 (JsonBody (VDict root)) /\
  contains root "message" = true.
Proof. split; reflexivity. Qed.

End MainSpec.

(* ===================================================================== *)
(** * The model adapter *)
(* ===================================================================== *)

Module MlModelSpec.

Import PyFloat Py MlModel.
Local Open Scope string_scope.

(** C7, as the specification states it, fails: when the model file
    exists and unpickles to [None], the [model] attribute is [None]
    after [load_model], and [get_model_info] reports it. *)
Lemma load_model_may_hold_None :
  model (init Sample.pickled_None default_model_path) = PyNone /\
  lookup "is_loaded"
    (get_model_info Sample.pickled_None
       (init Sample.pickled_None default_model_path)) = Some (VBool false).
Proof. split; reflexivity. Qed.

(** C7, amended.  After [load_model] the [model] attribute is the
    unpickled object when the file exists and loads, and otherwise (the
    file is missing, or looking for it or loading it raises) the dummy
    classifier: a [LogisticRegression] fitted on the synthetic dataset of
    100 samples, 4 features and random state 42, which is not [None]. *)
Theorem load_model_falls_back (env : Environment) (self : MLModel) :
  model (load_model env self) =
  match path_exists env (model_path self) with
  | inl true =>
      match joblib_load env (model_path self) with
      | inl loaded => loaded
      | inr _ => LogisticRegression (mkDataset 100 4 42)
      end
  | _ => LogisticRegression (mkDataset 100 4 42)
  end /\
  model_path (load_model env self) = model_path self /\
  is_not_None (LogisticRegression (mkDataset 100 4 42)) = true.
Proof.
  unfold load_model, rbind, _create_dummy_model.
  destruct (path_exists env (model_path self)) as [[|]|e];
    [destruct (joblib_load env (model_path self))| |]; repeat split.
Qed.

(** When [MLModel.predict] returns, [confidence] is the maximum of the
    [probability] list of the same result. *)
Theorem adapter_confidence_is_max
    (env : Environment) (self : MLModel) (features : list (string * float)) (d : dict) :
  predict env self features = inl d ->
  exists label probability confidence,
    d = [ ("prediction", VInt label);
          ("probability", VList (map VNum probability));
          ("confidence", VNum confidence) ] /\
    py_max probability = Some confidence.
Proof.
  unfold predict, rbind, max_of. intros H.
  destruct (reshape_row _) as [a|]; [|discriminate].
  destruct (call_predict _ _ _) as [labels|]; [|discriminate].
  destruct (first labels) as [label|]; [|discriminate].
  destruct (call_predict_proba _ _ _) as [rows|]; [|discriminate].
  destruct (first rows) as [probability|]; [|discriminate].
  destruct (py_max probability) as [confidence|] eqn:Hmax; [|discriminate].
  injection H as <-. eauto.
Qed.

Lemma adapter_confidence_is_max_witness :
  exists label probability confidence,
    [ ("prediction", VInt 0);
      ("probability", VList [VNum (of_ratio 1 4); VNum (of_ratio 3 4)]);
      ("confidence", VNum (of_ratio 3 4)) ]
    = [ ("prediction", VInt label);
        ("probability", VList (map VNum probability));
        ("confidence", VNum confidence) ] /\
    py_max probability = Some confidence.
Proof.
  apply (adapter_confidence_is_max Sample.no_model_file
           (init Sample.no_model_file default_model_path)
           [("feature1", of_Z 1); ("feature2", of_Z 2)]).
  vm_compute. reflexivity.
Defined.

(** [MLModel.get_model_info] returns the keys [model_type], [model_path]
    and [is_loaded]; with no model file on disk the adapter still reports
    [is_loaded = true], and [model_type] names the fallback. *)
Theorem adapter_info_reports_fallback :
  let self := init Sample.no_model_file default_model_path in
  keys (get_model_info Sample.no_model_file self)
  = ["model_type"; "model_path"; "is_loaded"] /\
  lookup "is_loaded" (get_model_info Sample.no_model_file self) = Some (VBool true) /\
  lookup "model_type" (get_model_info Sample.no_model_file self)
  = Some (VStr "LogisticRegression").
Proof. repeat split. Qed.

End MlModelSpec.

(* ===================================================================== *)
(** * The order of the floats *)
(* ===================================================================== *)

Module FloatOrder.

Import PyFloat FloatFacts.
Local Open Scope R_scope.

(** ** Comparison is comparison of the values *)

Lemma scaled_B2R x ez :
  (ez <= exponent x ez)%Z -> IZR (scaled x ez) * p2 ez = B2R x.
Proof.
  destruct x as [s|s| |s m e]; unfold scaled, B2R, exponent, cond_Zopp;
    intros He; try lra.
  assert (Hp : IZR (2 ^ (e - ez)) * p2 ez = p2 e).
  { rewrite <- p2_Z by lia. rewrite <- p2_add. f_equal. lia. }
  destruct s; rewrite ?opp_IZR, mult_IZR; nra.
Qed.

Lemma common_exponent_le x y :
  (common_exponent x y <= exponent x (common_exponent x y))%Z /\
  (common_exponent x y <= exponent y (common_exponent x y))%Z.
Proof.
  unfold common_exponent. destruct x, y; simpl; lia.
Qed.

Lemma compare_B2R x y :
  isfinite x = true -> isfinite y = true ->
  exists c, compare x y = Some c /\
            (c = Lt <-> B2R x < B2R y) /\ (c = Eq <-> B2R x = B2R y) /\
            (c = Gt <-> B2R y < B2R x).
Proof.
  intros Hx Hy.
  destruct (common_exponent_le x y) as [Hex Hey].
  pose proof (scaled_B2R x _ Hex) as Vx. pose proof (scaled_B2R y _ Hey) as Vy.
  pose proof (p2_pos (common_exponent x y)) as Hp.
  set (ez := common_exponent x y) in *.
  exists (scaled x ez ?= scaled y ez)%Z. split.
  { destruct x, y; try discriminate; reflexivity. }
  destruct (Z.compare_spec (scaled x ez) (scaled y ez)) as [H|H|H].
  - rewrite H in Vx. repeat split; intros; try discriminate; try lra.
  - apply IZR_lt in H. repeat split; intros; try discriminate; try nra.
  - apply IZR_lt in H. repeat split; intros; try discriminate; try nra.
Qed.

Lemma ltb_B2R x y :
  isfinite x = true -> isfinite y = true ->
  (ltb x y = true <-> B2R x < B2R y).
Proof.
  intros Hx Hy. destruct (compare_B2R x y Hx Hy) as (c & Hc & HLt & HEq & HGt).
  unfold ltb. rewrite Hc. destruct c; split; intros H;
    try discriminate; try reflexivity; try tauto.
  - assert (B2R x = B2R y) by tauto. lra.
  - assert (B2R y < B2R x) by tauto. lra.
Qed.

Lemma leb_B2R x y :
  isfinite x = true -> isfinite y = true ->
  (leb x y = true <-> B2R x <= B2R y).
Proof.
  intros Hx Hy. destruct (compare_B2R x y Hx Hy) as (c & Hc & HLt & HEq & HGt).
  unfold leb. rewrite Hc. destruct c; split; intros H;
    try discriminate; try reflexivity.
  - assert (B2R x = B2R y) by tauto. lra.
  - assert (B2R x < B2R y) by tauto. lra.
  - assert (B2R y < B2R x) by tauto. lra.
Qed.

(** ** Values in the unit interval *)

Lemma round_binary64_value s a b m e :
  (0 < a)%Z -> round_binary64 s a b = S754_finite s m e ->
  IZR (Zpos m) * p2 e = IZR (rmant a b) * p2 (rexp a b).
Proof.
  intros Ha H. rewrite round_binary64_unfold in H by assumption.
  change (2 ^ prec)%Z with (2 ^ 53)%Z in H.
  change (2 ^ (prec - 1))%Z with (2 ^ 52)%Z in H.
  destruct (Z.eqb_spec (rmant a b) (2 ^ 53)) as [Hc|Hc].
  - destruct (_ <=? etop)%Z; [|discriminate]. injection H as <- <-.
    rewrite Hc, p2_succ.
    change (IZR (Zpos (Z.to_pos (2 ^ 52)))) with 4503599627370496.
    change (IZR (2 ^ 53)) with 9007199254740992. lra.
  - destruct (rmant a b) as [|p|p]; try discriminate.
    destruct (_ <=? etop)%Z; [|discriminate]. injection H as <- <-. reflexivity.
Qed.

(** A ratio of at most 1 rounds to a float of at most 1. *)
Lemma round_binary64_unit a b :
  (0 < b)%Z -> (a <= b)%Z -> 0 <= B2R (round_binary64 false a b) <= 1.
Proof.
  intros Hb Hab.
  destruct (round_binary64_sign false a b) as [H|[H|(m & e & H)]].
  - rewrite H. simpl. lra.
  - rewrite H. simpl. lra.
  - rewrite H. simpl.
    assert (Ha : (0 < a)%Z).
    { unfold round_binary64 in H. destruct (Z.leb_spec a 0); [discriminate|lia]. }
    rewrite (round_binary64_value false a b m e Ha H).
    pose proof (ilog2_ratio_spec a b Ha Hb) as [HE _].
    pose proof (scaled_rhe_error a b (rexp a b) Hb) as Herr.
    pose proof (scaled_rhe_nonneg a b (rexp a b) ltac:(lia) Hb) as Hnn.
    fold (rmant a b) in Herr, Hnn. apply Rabs_le_inv in Herr.
    pose proof (p2_pos (rexp a b)) as Hp.
    pose proof (IZR_ratio a b _ Hb eq_refl) as Ht.
    apply IZR_le in Hab, Hnn. apply IZR_lt in Hb as Hb'.
    set (t := IZR a / IZR b) in *.
    assert (Ht1 : t <= 1).
    { apply Rmult_le_reg_r with (IZR b); lra. }
    assert (HE0 : (ilog2_ratio a b < 1)%Z).
    { apply p2_lt_inv. rewrite p2_1. lra. }
    assert (Hr : (rexp a b <= 0)%Z).
    { unfold rexp, prec, emin. lia. }
    assert (HN : p2 (rexp a b) * IZR (2 ^ (- rexp a b)) = 1).
    { rewrite <- p2_Z by lia. rewrite <- p2_add.
      replace (rexp a b + - rexp a b)%Z with 0%Z by lia. apply p2_0. }
    assert (0 < IZR (2 ^ (- rexp a b))).
    { rewrite <- p2_Z by lia. apply p2_pos. }
    assert (Hv : t / p2 (rexp a b) <= IZR (2 ^ (- rexp a b))).
    { apply Rmult_le_reg_r with (p2 (rexp a b)); [lra|].
      unfold Rdiv. rewrite Rmult_assoc, Rinv_l by lra. lra. }
    assert (Hm : (rmant a b <= 2 ^ (- rexp a b))%Z).
    { assert (rmant a b < 2 ^ (- rexp a b) + 1)%Z; [|lia].
      apply lt_IZR. rewrite plus_IZR. lra. }
    apply IZR_le in Hm. split; nra.
Qed.

Lemma uniform_unit k : 0 <= B2R (Py.uniform k) <= 1.
Proof.
  unfold Py.uniform, round_dyadic. apply round_binary64_unit.
  - apply Z.pow_pos_nonneg; lia.
  - change (2 ^ Z.max 0 (-53))%Z with 1%Z.
    change (2 ^ Z.max 0 (- -53))%Z with (2 ^ 53)%Z.
    pose proof (Z.mod_pos_bound k (2 ^ 53) ltac:(lia)). lia.
Qed.

(** [round] keeps a float of the unit interval in it. *)
Lemma py_round_unit x n r :
  (0 <= n <= 15)%Z -> nonneg x = true -> 0 <= B2R x <= 1 ->
  py_round x n = Some r -> 0 <= B2R r <= 1.
Proof.
  intros Hn Hx Hu H. apply nonneg_spec in Hx.
  destruct x as [s|s| |s m e]; try contradiction;
    try (injection H as <-; simpl; lra).
  subst s. simpl in H. destruct (isfinite _); [|discriminate].
  injection H as <-.
  pose proof (pow10_range n Hn) as [HP _].
  apply round_binary64_unit; [lia|].
  pose proof (round_decimal_error m e n) as Hdec. apply Rabs_le_inv in Hdec.
  simpl in Hu. apply IZR_le in HP.
  assert (round_decimal m e n < 10 ^ n + 1)%Z; [|lia].
  apply lt_IZR. rewrite plus_IZR. nra.
Qed.

End FloatOrder.

(* ===================================================================== *)
(** * The maximum of a list of floats *)
(* ===================================================================== *)

Module FloatMax.

Import PyFloat FloatFacts FloatOrder.
Local Open Scope R_scope.

Lemma max_from_spec xs : forall best,
  isfinite best = true -> forallb isfinite xs = true ->
  (max_from best xs = best \/ In (max_from best xs) xs) /\
  isfinite (max_from best xs) = true /\
  B2R best <= B2R (max_from best xs) /\
  (forall x, In x xs -> B2R x <= B2R (max_from best xs)).
Proof.
  induction xs as [|y ys IH]; intros best Hb Hall; simpl.
  - repeat split; try tauto; try assumption. lra.
  - simpl in Hall. apply andb_true_iff in Hall. destruct Hall as [Hy Hys].
    pose proof (ltb_B2R best y Hb Hy) as Hlt.
    destruct (ltb best y) eqn:Hcmp.
    + destruct (IH y Hy Hys) as (Hin & Hfin & Hle & Hub).
      assert (B2R best < B2R y) by (apply Hlt; reflexivity).
      repeat split; try assumption.
      * right. destruct Hin as [->|Hin]; [left; reflexivity|right; exact Hin].
      * lra.
      * intros x [<-|Hx]; [exact Hle|apply Hub, Hx].
    + destruct (IH best Hb Hys) as (Hin & Hfin & Hle & Hub).
      assert (~ B2R best < B2R y).
      { intros Hc. apply Hlt in Hc. discriminate. }
      repeat split; try assumption.
      * destruct Hin as [->|Hin]; [left; reflexivity|right; right; exact Hin].
      * intros x [<-|Hx]; [lra|apply Hub, Hx].
Qed.

(** [max] of a list of finite floats is one of them, and none exceeds it. *)
Lemma py_max_spec xs m :
  forallb isfinite xs = true -> py_max xs = Some m ->
  In m xs /\ forall x, In x xs -> leb x m = true.
Proof.
  intros Hall H. destruct xs as [|y ys]; [discriminate|].
  simpl in H. injection H as <-.
  simpl in Hall. apply andb_true_iff in Hall. destruct Hall as [Hy Hys].
  destruct (max_from_spec ys y Hy Hys) as (Hin & Hfin & Hle & Hub).
  split.
  - destruct Hin as [->|Hin]; [left; reflexivity|right; exact Hin].
  - intros x Hx. apply leb_B2R; [|exact Hfin|].
    + destruct Hx as [<-|Hx]; [exact Hy|].
      rewrite forallb_forall in Hys. apply Hys, Hx.
    + destruct Hx as [<-|Hx]; [exact Hle|apply Hub, Hx].
Qed.

(** [max] returns an element of the list, whatever the list holds. *)
Lemma max_from_in xs : forall best,
  max_from best xs = best \/ In (max_from best xs) xs.
Proof.
  induction xs as [|y ys IH]; intros best; simpl; [left; reflexivity|].
  destruct (ltb best y).
  - destruct (IH y) as [->|Hin]; [right; left; reflexivity|right; right; exact Hin].
  - destruct (IH best) as [->|Hin]; [left; reflexivity|right; right; exact Hin].
Qed.

End FloatMax.

(* ===================================================================== *)
(** * The routes in full *)
(* ===================================================================== *)

Module RouteSpec.

Import PyFloat Py Main FloatFacts FloatOrder MainFacts.
Local Open Scope string_scope.

(** [round] never raises on the result of a float operation. *)
Lemma py_round_valid x n :
  valid x = true -> (0 <= n <= 15)%Z ->
  exists t, py_round x n = Some t /\ isfinite t = isfinite x.
Proof.
  intros Hv Hn. destruct (isfinite x) eqn:Hf.
  - destruct (py_round_total x n Hv Hf Hn) as (t & Ht & _ & Ft). eauto.
  - destruct x as [s|s| |s m e]; try discriminate Hf; eexists; split; reflexivity.
Qed.

(** Every answer of [POST /predict], and the state it leaves. *)
Lemma post_predict_cases (fw : Framework) (raw : value) (w : World) :
  exists p q t,
    py_round (uniform (rng w (draws w))) 4 = Some p /\
    py_round (uniform (rng w (S (draws w)))) 4 = Some q /\
    py_round (elapsed_ms w) 2 = Some t /\
    post_predict fw raw w =
    match validate_PredictionRequest fw raw with
    | None => (mkResponse 422 ValidationErrors, w)
    | Some request =>
        match features request with
        | [] =>
            (mkResponse 500
               (JsonBody (VDict [("detail", VStr (empty_features_detail fw))])),
             after_reading w)
        | _ :: _ =>
            (if isfinite (elapsed_ms w)
             then mkResponse 200 (JsonBody (VDict (prediction_dict p q t)))
             else mkResponse 500 InternalServerError,
             after_predict w)
        end
    end.
Proof.
  destruct (round_draw (rng w (draws w))) as (p & Hp & Fp).
  destruct (round_draw (rng w (S (draws w)))) as (q & Hq & Fq).
  destruct (py_round_valid (elapsed_ms w) 2 (mul_valid _ _) ltac:(lia))
    as (t & Ht & Ft).
  exists p, q, t. repeat split; try assumption.
  unfold post_predict.
  destruct (validate_PredictionRequest fw raw) as [[[|f fs] mv]|]; [| |reflexivity].
  - rewrite predict_empty. reflexivity.
  - rewrite predict_nonempty by discriminate.
    rewrite Hp, Hq, Ht, respond_prediction_dict, Fp, Fq, Ft. reflexivity.
Qed.

(** The status of [POST /predict] is 422 when the body does not validate,
    500 when the feature list is empty or the measured latency is not a
    finite number, and 200 otherwise; it is never 400, the status the
    emptiness check raises. *)
Theorem post_predict_status (fw : Framework) (raw : value) (w : World) :
  status (fst (post_predict fw raw w)) =
  match validate_PredictionRequest fw raw with
  | None => 422
  | Some request =>
      match features request with
      | [] => 500
      | _ :: _ => if isfinite (elapsed_ms w) then 200 else 500
      end
  end /\
  status (fst (post_predict fw raw w)) <> 400.
Proof.
  destruct (post_predict_cases fw raw w) as (p & q & t & _ & _ & _ & ->).
  destruct (validate_PredictionRequest fw raw) as [[[|f fs] mv]|];
    cbn [features fst status].
  - split; [reflexivity|discriminate].
  - destruct (isfinite (elapsed_ms w)); split; try reflexivity; discriminate.
  - split; [reflexivity|discriminate].
Qed.


(** In a 200 answer of [POST /predict], [prediction] and [probability]
    lie between 0.0 and 1.0, both bounds included: a draw below 1 may
    round to 1.0. *)
Theorem prediction_in_unit_interval
    (fw : Framework) (raw : value) (w w' : World) (resp : Response) :
  post_predict fw raw w = (resp, w') -> status resp = 200 ->
  exists p q t,
    content resp = JsonBody (VDict (prediction_dict p q t)) /\
    leb zero p = true /\ leb p one = true /\
    leb zero q = true /\ leb q one = true.
Proof.
  intros H Hs.
  destruct (post_predict_200 fw raw w resp w' H Hs)
    as (request & p & q & t & _ & _ & Hp & Hq & _ & Fp & Fq & _ & -> & _).
  assert (Hunit : forall k r, py_round (uniform k) 4 = Some r ->
                              isfinite r = true ->
                              leb zero r = true /\ leb r one = true).
  { intros k r Hr Fr.
    assert (Hnn : nonneg (uniform k) = true) by apply round_binary64_nonneg.
    pose proof (py_round_unit (uniform k) 4 r ltac:(lia) Hnn (uniform_unit k) Hr)
      as [H0 H1].
    assert (Hone : B2R one = 1%R).
    { unfold one, B2R. rewrite <- p2_52.
      replace (p2 (-52)) with (/ p2 52)%R by (rewrite <- p2_opp; reflexivity).
      pose proof (p2_pos 52). field. lra. }
    split; apply leb_B2R; try assumption; try reflexivity.
    rewrite Hone. exact H1. }
  destruct (Hunit _ _ Hp Fp) as [Hp0 Hp1].
  destruct (Hunit _ _ Hq Fq) as [Hq0 Hq1].
  exists p, q, t. repeat split; assumption.
Qed.

Lemma prediction_in_unit_interval_witness :
  exists p q t,
    content (fst (post_predict Sample.strict Sample.array_body Sample.world))
    = JsonBody (VDict (prediction_dict p q t)) /\
    leb zero p = true /\ leb p one = true /\
    leb zero q = true /\ leb q one = true.
Proof.
  apply (prediction_in_unit_interval Sample.strict Sample.array_body
           Sample.world (snd (post_predict Sample.strict Sample.array_body Sample.world))).
  - apply surjective_pairing.
  - vm_compute. reflexivity.
Defined.

(** The bound 1.0 is reached: the largest draw rounds to it. *)
Example prediction_may_be_one :
  py_round (uniform (2 ^ 53 - 1)) 4 = Some one.
Proof. vm_compute. reflexivity. Qed.


End RouteSpec.

(* ===================================================================== *)
(** * Request validation *)
(* ===================================================================== *)

Module ValidationSpec.

Import PyFloat Py Main MainFacts RouteSpec.
Local Open Scope string_scope.



Lemma validate_items_numbers (fw : Framework) (fs : list float) :
  validate_items fw (map VNum fs) = Some fs.
Proof.
  induction fs as [|x fs IH]; simpl; [reflexivity|]. rewrite IH. reflexivity.
Qed.

(** A request written as a JSON body validates back to itself, so the
    answer to the body is the answer to the request: 500 for an empty
    feature list, 200 otherwise when the measured latency is finite. *)
Theorem request_round_trip (fw : Framework) (request : PredictionRequest) (w : World) :
  validate_PredictionRequest fw (encode_request request) = Some request /\
  status (fst (post_predict fw (encode_request request) w)) =
  match features request with
  | [] => 500
  | _ :: _ => if isfinite (elapsed_ms w) then 200 else 500
  end.
Proof.
  assert (Hv : validate_PredictionRequest fw (encode_request request) = Some request).
  { destruct request as [fs mv]. unfold encode_request, validate_PredictionRequest.
    cbn [features model_version lookup String.eqb Ascii.eqb Bool.eqb
         list_float_validator str_validator].
    rewrite validate_items_numbers. reflexivity. }
  split; [exact Hv|].
  destruct (post_predict_status fw (encode_request request) w) as [-> _].
  rewrite Hv. reflexivity.
Qed.

Lemma validate_items_bad_item (fw : Framework) (items : list value) (v : value) :
  In v items -> float_validator fw v = None -> validate_items fw items = None.
Proof.
  induction items as [|u rest IH]; intros Hin Hv; [contradiction|].
  simpl. destruct Hin as [->|Hin].
  - rewrite Hv. reflexivity.
  - rewrite (IH Hin Hv). destruct (float_validator fw u); reflexivity.
Qed.

(** One item of [features] that does not validate as a float, wherever
    it stands in the array, makes the answer 422 and leaves the state
    untouched; [null], an array and an object are such items. *)
Theorem bad_feature_item_is_rejected
    (fw : Framework) (entries : dict) (items : list value) (v : value) (w : World) :
  lookup "features" entries = Some (VList items) ->
  In v items ->
  match v with
  | VNone | VList _ | VDict _ => True
  | _ => float_validator fw v = None
  end ->
  post_predict fw (VDict entries) w = (mkResponse 422 ValidationErrors, w).
Proof.
  intros Hf Hin Hbad.
  assert (Hv : float_validator fw v = None).
  { destruct v; try exact Hbad; reflexivity. }
  unfold post_predict, validate_PredictionRequest, list_float_validator.
  rewrite Hf, (validate_items_bad_item fw items v Hin Hv). reflexivity.
Qed.

Lemma bad_feature_item_is_rejected_witness :
  post_predict Sample.strict
    (VDict [("features", VList [VNum (of_Z 1); VNone; VNum (of_Z 3)])]) Sample.world
  = (mkResponse 422 ValidationErrors, Sample.world).
Proof.
  apply (bad_feature_item_is_rejected Sample.strict _
           [VNum (of_Z 1); VNone; VNum (of_Z 3)] VNone).
  - reflexivity.
  - right. left. reflexivity.
  - exact I.
Defined.

End ValidationSpec.

(* ===================================================================== *)
(** * The model adapter in full *)
(* ===================================================================== *)

Module AdapterSpec.

Import PyFloat Py MlModel FloatMax.
Local Open Scope string_scope.

(** What a result of [MLModel.predict] is made of. *)
Lemma predict_result (env : Environment) (self : MLModel)
    (features : list (string * float)) (d : dict) :
  predict env self features = inl d ->
  exists labels rows label probability confidence,
    call_predict env (model self) [map snd features] = inl (label :: labels) /\
    call_predict_proba env (model self) [map snd features] = inl (probability :: rows) /\
    py_max probability = Some confidence /\
    d = [ ("prediction", VInt label);
          ("probability", VList (map VNum probability));
          ("confidence", VNum confidence) ].
Proof.
  unfold predict, rbind, max_of, reshape_row. intros H.
  destruct (call_predict _ _ _) as [[|label labels]|]; try discriminate.
  destruct (call_predict_proba _ _ _) as [[|probability rows]|]; try discriminate.
  simpl in H.
  destruct (py_max probability) as [confidence|] eqn:Hmax; [|discriminate].
  injection H as <-. exists labels, rows, label, probability, confidence.
  repeat split. exact Hmax.
Qed.

(** In a result of [MLModel.predict], [confidence] is one of the entries
    of [probability], and when the entries are finite numbers none of them
    exceeds it. *)
Theorem adapter_confidence_bounds (env : Environment) (self : MLModel)
    (features : list (string * float)) (d : dict) :
  predict env self features = inl d ->
  exists probability confidence,
    lookup "probability" d = Some (VList (map VNum probability)) /\
    lookup "confidence" d = Some (VNum confidence) /\
    In confidence probability /\
    (forallb isfinite probability = true ->
     forall x, In x probability -> leb x confidence = true).
Proof.
  intros H.
  destruct (predict_result env self features d H)
    as (labels & rows & label & probability & confidence & _ & _ & Hmax & ->).
  exists probability, confidence. repeat split.
  - destruct probability as [|y ys]; [discriminate|].
    simpl in Hmax. injection Hmax as <-.
    destruct (max_from_in ys y) as [->|Hin]; [left; reflexivity|right; exact Hin].
  - intros Hall. apply (py_max_spec probability confidence Hall Hmax).
Qed.

Lemma adapter_confidence_bounds_witness :
  exists probability confidence,
    lookup "probability"
      [ ("prediction", VInt 0);
        ("probability", VList [VNum (of_ratio 1 4); VNum (of_ratio 3 4)]);
        ("confidence", VNum (of_ratio 3 4)) ]
    = Some (VList (map VNum probability)) /\
    lookup "confidence"
      [ ("prediction", VInt 0);
        ("probability", VList [VNum (of_ratio 1 4); VNum (of_ratio 3 4)]);
        ("confidence", VNum (of_ratio 3 4)) ]
    = Some (VNum confidence) /\
    In confidence probability /\
    (forallb isfinite probability = true ->
     forall x, In x probability -> leb x confidence = true).
Proof.
  apply (adapter_confidence_bounds Sample.no_model_file
           (init Sample.no_model_file default_model_path)
           [("feature1", of_Z 1); ("feature2", of_Z 2)]).
  vm_compute. reflexivity.
Defined.

(** Every failure of [MLModel.predict] is a [ValueError] whose message
    starts with ["Failed to make prediction: "], whatever raised inside:
    no other exception leaves the method. *)
Theorem adapter_errors_are_value_errors (env : Environment) (self : MLModel)
    (features : list (string * float)) (e : exn) :
  predict env self features = inr e ->
  exists msg, e = ValueError ("Failed to make prediction: " ++ msg).
Proof.
  unfold predict. intros H.
  destruct (rbind _ _) as [d|e0]; [discriminate|].
  injection H as <-. exists (str_exn e0). reflexivity.
Qed.

Lemma adapter_errors_are_value_errors_witness :
  exists msg,
    ValueError "Failed to make prediction: 'NoneType' object has no attribute 'predict'"
    = ValueError ("Failed to make prediction: " ++ msg).
Proof.
  apply (adapter_errors_are_value_errors Sample.pickled_None
           (init Sample.pickled_None default_model_path)
           [("feature1", of_Z 1)]).
  reflexivity.
Defined.

(** When the model file exists and unpickles to [None], the adapter is
    built without an error and every later [predict] raises. *)
Theorem predict_without_model (env : Environment) (path : string)
    (features : list (string * float)) :
  path_exists env path = inl true ->
  joblib_load env path = inl PyNone ->
  predict env (init env path) features =
  inr (ValueError
         "Failed to make prediction: 'NoneType' object has no attribute 'predict'").
Proof.
  intros Hexists Hload.
  unfold init, load_model, rbind, predict. cbn [model_path].
  rewrite Hexists, Hload. reflexivity.
Qed.

Lemma predict_without_model_witness :
  predict Sample.pickled_None (init Sample.pickled_None default_model_path)
    [("feature1", of_Z 1)] =
  inr (ValueError
         "Failed to make prediction: 'NoneType' object has no attribute 'predict'").
Proof.
  apply (predict_without_model Sample.pickled_None default_model_path);
    reflexivity.
Defined.

(** When the model file is missing, or looking for it or loading it
    raises, the adapter built by [MLModel(path)] reports the fallback:
    [model_type] is ["LogisticRegression"], [model_path] is the text of
    the path and [is_loaded] is true. *)
Theorem adapter_info_after_fallback (env : Environment) (path : string) :
  path_exists env path = inl false \/
  (exists e, path_exists env path = inr e) \/
  (exists e, joblib_load env path = inr e) ->
  get_model_info env (init env path) =
  [ ("model_type", VStr "LogisticRegression");
    ("model_path", VStr (path_str env path));
    ("is_loaded", VBool true) ].
Proof.
  intros H. unfold get_model_info, init, load_model, rbind. cbn [model_path].
  destruct H as [H|[[e H]|[e H]]].
  - rewrite H. reflexivity.
  - rewrite H. reflexivity.
  - rewrite H. destruct (path_exists env path) as [[|]|]; reflexivity.
Qed.

Lemma adapter_info_after_fallback_witness :
  get_model_info Sample.no_model_file (init Sample.no_model_file default_model_path) =
  [ ("model_type", VStr "LogisticRegression");
    ("model_path", VStr "models/model.pkl");
    ("is_loaded", VBool true) ].
Proof.
  apply (adapter_info_after_fallback Sample.no_model_file default_model_path).
  left. reflexivity.
Defined.

(** [MLModel.predict] reads the values of the feature dict in their
    order and never its keys: two dicts with the same values in the same
    order get the same result. *)
Theorem feature_names_are_ignored (env : Environment) (self : MLModel)
    (features features' : list (string * float)) :
  map snd features = map snd features' ->
  predict env self features = predict env self features'.
Proof.
  intros H. unfold predict. rewrite H. reflexivity.
Qed.

Lemma feature_names_are_ignored_witness :
  predict Sample.no_model_file (init Sample.no_model_file default_model_path)
    [("feature1", of_Z 1); ("feature2", of_Z 2)]
  = predict Sample.no_model_file (init Sample.no_model_file default_model_path)
      [("a", of_Z 1); ("b", of_Z 2)].
Proof.
  apply (feature_names_are_ignored Sample.no_model_file
           (init Sample.no_model_file default_model_path)).
  reflexivity.
Defined.

End AdapterSpec.
